(** * Stackd: the projection engine and the account rules

    A shallow embedding of the calculation code of the two page files
    (the plain form, and the form with account-specific contribution
    fields).  The helper functions [getCompoundFrequencyPerYear],
    [getContributionPerPeriod], [calculateCompoundInterest],
    [calculateYearlyData] and [isValidInputs] are textually the same in
    both files and are embedded once.

    Numbers.  The source computes on JavaScript numbers.  Here amounts and
    rates are exact rationals ([Q]).  The engine is embedded first for a
    horizon that is a whole number of years ([Z]), as the year field of
    the form steps by 1; there [Math.pow] is only applied to an integer
    exponent [n * t], where it is [Qpower].  Module [Num] embeds the gate,
    the loop and the projection for the horizon as it is read from the
    field, a number that need not be whole.  Module [Float64] embeds the
    balance calculator on binary64 numbers, to evaluate what the source
    returns where rounding decides.  [NaN] and infinities are outside
    these models. *)

From Stdlib Require Import ZArith QArith Qpower Qround Qminmax.
From Stdlib Require Import List Sorted Bool String Lia Lqa.
From Stdlib Require Import PrimFloat.
From Stdlib Require Uint63.
Import ListNotations.
Open Scope Q_scope.

(** ** JavaScript primitives used by the engine *)

(** [x > y] *)
Definition Qgtb (x y : Q) : bool := negb (Qle_bool x y).

(** [x >= y] *)
Definition Qgeb (x y : Q) : bool := Qle_bool y x.

(** [Math.pow(b, e)] at an integer exponent. *)
Definition Math_pow (b : Q) (e : Z) : Q := b ^ e.

(** [Math.round(x)]: nearest integer, halves go up. *)
Definition Math_round (x : Q) : Z := Qfloor (x + (1 # 2)).

(** [Math.floor(x)] *)
Definition Math_floor (x : Q) : Z := Qfloor x.

(** [Math.min(x, y)] *)
Definition Math_min (x y : Q) : Q := Qmin x y.

(** [parseFloat(field) || 0]: a field that is empty or does not parse
    ([None]) counts as 0. *)
Definition parseField (field : option Q) : Q :=
  match field with Some q => q | None => 0 end.

Definition parseYears (field : option Z) : Z :=
  match field with Some z => z | None => 0%Z end.

(** ** Types *)

Inductive AccountType : Set :=
  TFSA | RRSP | FHSA | RESP | General | Unselected.

Inductive CompoundFrequency : Set :=
  Annually | SemiAnnually | Quarterly | Monthly | Daily.

(** The result of [calculateCompoundInterest]. *)
Record Projection : Set := mkProjection {
  totalBalance : Q;
  totalContributed : Q;
  totalInterest : Q
}.

(** One element of the array returned by [calculateYearlyData]. *)
Module YearlyPoint.
Record t : Set := mk {
  year : Z;
  totalBalance : Q;
  totalContributed : Q;
  showLabel : bool
}.
End YearlyPoint.

(** One element of the [comparisonScenarios] array. *)
Module Scenario.
Record t : Set := mk {
  label : string;
  years : Z;
  totalBalance : Q;
  highlight : bool;
  missedAmount : Q
}.
End Scenario.

(** ** Frequency helpers *)

Definition getCompoundFrequencyPerYear (frequency : CompoundFrequency) : Z :=
  match frequency with
  | Annually => 1
  | SemiAnnually => 2
  | Quarterly => 4
  | Monthly => 12
  | Daily => 365
  end.

Definition getContributionPerPeriod
  (monthlyContribution : Q) (frequency : CompoundFrequency) : Q :=
  match frequency with
  | Annually => monthlyContribution * 12
  | SemiAnnually => monthlyContribution * 6
  | Quarterly => monthlyContribution * 3
  | Monthly => monthlyContribution
  | Daily => monthlyContribution / (365 / 12)
  end.

(** ** The balance calculator *)

(** The two summands of the balance after [t] years; the same two
    expressions occur in [calculateCompoundInterest] and in the loop body
    of [calculateYearlyData]. *)
Definition compoundPrincipalAt (P r : Q) (n t : Z) : Q :=
  P * Math_pow (1 + r / inject_Z n) (n * t).

Definition annuityValueAt (PMT r : Q) (n t : Z) : Q :=
  if Qgtb r 0
  then PMT * ((Math_pow (1 + r / inject_Z n) (n * t) - 1) / (r / inject_Z n))
  else PMT * inject_Z n * inject_Z t.

Definition calculateCompoundInterest
  (initialInvestment monthlyContribution annualReturn : Q) (years : Z)
  (frequency : CompoundFrequency) : Projection :=
  let P := initialInvestment in
  let r := annualReturn / 100 in
  let n := getCompoundFrequencyPerYear frequency in
  let t := years in
  let PMT := getContributionPerPeriod monthlyContribution frequency in
  let compoundPrincipal := compoundPrincipalAt P r n t in
  let annuityValue := annuityValueAt PMT r n t in
  let totalBalance := compoundPrincipal + annuityValue in
  let totalContributed := P + monthlyContribution * 12 * inject_Z t in
  let totalInterest := totalBalance - totalContributed in
  mkProjection totalBalance totalContributed totalInterest.

(** ** The trajectory generator *)

Section YearlyData.

Variables initialInvestment monthlyContribution annualReturn : Q.
Variable years : Z.
Variable frequency : CompoundFrequency.

(** [new Set([0, round(years * 0.25), round(years * 0.5),
    round(years * 0.75), years])] *)
Definition labelYears : list Z :=
  [ 0%Z;
    Math_round (inject_Z years * 0.25);
    Math_round (inject_Z years * 0.5);
    Math_round (inject_Z years * 0.75);
    years ].

(** [labelYears.has(t)] *)
Definition labelYears_has (t : Z) : bool :=
  existsb (Z.eqb t) labelYears.

(** The object pushed by one iteration of the loop. *)
Definition yearlyPoint (t : Z) : YearlyPoint.t :=
  let r := annualReturn / 100 in
  let n := getCompoundFrequencyPerYear frequency in
  let PMT := getContributionPerPeriod monthlyContribution frequency in
  let compoundPrincipal := compoundPrincipalAt initialInvestment r n t in
  let annuityValue := annuityValueAt PMT r n t in
  let totalBalance := compoundPrincipal + annuityValue in
  let totalContributed :=
    initialInvestment + monthlyContribution * 12 * inject_Z t in
  YearlyPoint.mk t totalBalance totalContributed (labelYears_has t).

(** [for (let t = ...; t <= years; t++) data.push(...)], run for at most
    [fuel] iterations from loop state [(t, data)]. *)
Fixpoint yearlyLoop (fuel : nat) (t : Z) (data : list YearlyPoint.t)
  : list YearlyPoint.t :=
  match fuel with
  | O => data
  | S fuel' =>
      if (t <=? years)%Z
      then yearlyLoop fuel' (t + 1) (data ++ [yearlyPoint t])
      else data
  end.

(** The loop starts at [t = 0] with [data = []]; it leaves after
    [years + 1] iterations, which is the fuel given. *)
Definition calculateYearlyData : list YearlyPoint.t :=
  yearlyLoop (Z.to_nat (years + 1)) 0 [].

End YearlyData.

(** ** The validity gate *)

Definition isValidInputs (initial monthly : Q) (years : Z) (returnRate : Q)
  : bool :=
  (Qgtb initial 0 || Qgtb monthly 0)
  && (years >? 0)%Z
  && (years <=? 100)%Z
  && Qgeb returnRate 0
  && Qle_bool returnRate 100.

(** ** The three memoised outputs of [Home]

    After the four fields are parsed, the bodies of [results],
    [chartData] and [comparisonScenarios] are the same in both pages;
    they differ only in where [monthly] comes from. *)

Section Outputs.

Variables initial monthly : Q.
Variable years : Z.
Variable returnRate : Q.
Variable compoundFrequency : CompoundFrequency.

Definition resultsOf : option Projection :=
  if negb (isValidInputs initial monthly years returnRate) then None
  else Some (calculateCompoundInterest
               initial monthly returnRate years compoundFrequency).

Definition chartDataOf : option (list YearlyPoint.t) :=
  if negb (isValidInputs initial monthly years returnRate) then None
  else Some (calculateYearlyData
               initial monthly returnRate years compoundFrequency).

Definition comparisonScenariosOf : option (list Scenario.t) :=
  if negb (isValidInputs initial monthly years returnRate) then None
  else
    let startNow :=
      calculateCompoundInterest
        initial monthly returnRate years compoundFrequency in
    let startNowBalance := totalBalance startNow in
    let scenarios :=
      [ Scenario.mk "Start Now" years startNowBalance true 0 ] in
    let scenarios :=
      if (years >=? 5)%Z then
        let wait5 :=
          calculateCompoundInterest
            initial monthly returnRate (years - 5) compoundFrequency in
        scenarios ++
        [ Scenario.mk "Wait 5 Years" (years - 5) (totalBalance wait5) false
            (startNowBalance - totalBalance wait5) ]
      else scenarios in
    let scenarios :=
      if (years >=? 10)%Z then
        let wait10 :=
          calculateCompoundInterest
            initial monthly returnRate (years - 10) compoundFrequency in
        scenarios ++
        [ Scenario.mk "Wait 10 Years" (years - 10) (totalBalance wait10) false
            (startNowBalance - totalBalance wait10) ]
      else scenarios in
    Some scenarios.

End Outputs.

(** ** The plain page: one monthly contribution field *)

Module Page.

(** The form state ([useState] hooks); [None] is a field whose text is
    empty or does not parse. *)
Record State : Set := mkState {
  initialInvestment : option Q;
  monthlyContribution : option Q;
  lengthOfTime : option Z;
  annualReturn : option Q;
  compoundFrequency : CompoundFrequency;
  accountType : AccountType
}.

(** An entry of [ACCOUNT_LIMITS]. *)
Record Limits : Set := mkLimits {
  annualLimit : option Q;
  lifetimeLimit : option Q
}.

(** [ACCOUNT_LIMITS[accountType]]; the table has no entry for the
    unselected account type. *)
Definition ACCOUNT_LIMITS (a : AccountType) : option Limits :=
  match a with
  | TFSA => Some (mkLimits (Some 7000) None)
  | RRSP => Some (mkLimits (Some 31560) None)
  | FHSA => Some (mkLimits (Some 8000) (Some 40000))
  | RESP => Some (mkLimits None (Some 50000))
  | General => Some (mkLimits None None)
  | Unselected => None
  end.

(** The warning texts, by template and the values formatted into it:
    - [RespInitialOverLifetime]: "Your initial investment of <initial>
      exceeds the RESP lifetime limit of $50,000. ..."
    - [FhsaMonthlyOverAnnual]: "Your monthly contributions of
      <monthly>/month (<annual>/year) exceed the FHSA annual limit of
      $8,000/year. Consider reducing ... to <maxMonthly>/month or less."
    - [FhsaInitialOverLifetime]: "Your initial investment of <initial>
      exceeds the FHSA lifetime limit of $40,000. ..."
    - [MonthlyOverAnnual]: "Your monthly contributions of <monthly>/month
      (<annual>/year) exceed the <accountType> annual limit of
      <limit>/year. Consider reducing ... to <maxMonthly>/month or less." *)
Inductive Warning : Set :=
| RespInitialOverLifetime (initial : Q)
| FhsaMonthlyOverAnnual (monthly annual : Q) (maxMonthly : Z)
| FhsaInitialOverLifetime (initial : Q)
| MonthlyOverAnnual (a : AccountType) (monthly annual limit : Q)
    (maxMonthly : Z).

Definition results (s : State) : option Projection :=
  resultsOf (parseField (initialInvestment s))
    (parseField (monthlyContribution s)) (parseYears (lengthOfTime s))
    (parseField (annualReturn s)) (compoundFrequency s).

Definition chartData (s : State) : option (list YearlyPoint.t) :=
  chartDataOf (parseField (initialInvestment s))
    (parseField (monthlyContribution s)) (parseYears (lengthOfTime s))
    (parseField (annualReturn s)) (compoundFrequency s).

Definition comparisonScenarios (s : State) : option (list Scenario.t) :=
  comparisonScenariosOf (parseField (initialInvestment s))
    (parseField (monthlyContribution s)) (parseYears (lengthOfTime s))
    (parseField (annualReturn s)) (compoundFrequency s).

Definition accountWarning (s : State) : option Warning :=
  match accountType s with
  | Unselected | General => None
  | a =>
      let initial := parseField (initialInvestment s) in
      let monthly := parseField (monthlyContribution s) in
      let annual := monthly * 12 in
      match ACCOUNT_LIMITS a with
      | None => None
      | Some limits =>
          match a with
          | RESP =>
              if Qgtb initial 50000
              then Some (RespInitialOverLifetime initial)
              else None
          | FHSA =>
              if Qgtb annual 8000 then
                Some (FhsaMonthlyOverAnnual monthly annual
                        (Math_floor (8000 / 12)))
              else if Qgtb initial 40000 then
                Some (FhsaInitialOverLifetime initial)
              else None
          | _ =>
              match annualLimit limits with
              | Some lim =>
                  if Qgtb annual lim then
                    Some (MonthlyOverAnnual a monthly annual lim
                            (Math_floor (lim / 12)))
                  else None
              | None => None
              end
          end
      end
  end.

End Page.

(** ** The page with account-specific contribution fields *)

Module AccountPage.

Record State : Set := mkState {
  initialInvestment : option Q;
  monthlyContribution : option Q;
  lengthOfTime : option Z;
  annualReturn : option Q;
  compoundFrequency : CompoundFrequency;
  accountType : AccountType;
  tfsaAnnualContribution : option Q;
  tfsaContributionYears : option Q;
  rrspAnnualIncome : option Q;
  rrspAnnualContribution : option Q;
  fhsaAnnualContribution : option Q;
  respAnnualContribution : option Q
}.

(** The warning texts, by template and the values formatted into it:
    - [TfsaOverAnnual]: "You've exceeded the $7,000 annual TFSA limit.
      Maximum annual contribution is $7,000."
    - [RrspOverLimit]: "Your annual contribution of <annual> exceeds your
      RRSP limit of <limit>. Consider reducing your contribution."
    - [FhsaOverAnnual]: "Your annual contribution of <annual> exceeds the
      FHSA annual limit of $8,000."
    - [FhsaInitialOverLifetime]: "Your initial investment of <initial>
      exceeds the FHSA lifetime limit of $40,000."
    - [FhsaLifetimeHit]: "You'll hit the $40,000 FHSA lifetime limit in
      <yearsUntilLimit> year(s). After that, no new contributions can be
      made."
    - [RespLifetimeExceeded]: "Your lifetime RESP contributions (<total>)
      will exceed the $50,000 limit. ..."
    - [RespInitialOverLifetime]: "Your initial investment of <initial>
      exceeds the RESP lifetime limit of $50,000." *)
Inductive Warning : Set :=
| TfsaOverAnnual
| RrspOverLimit (annual limit : Q)
| FhsaOverAnnual (annual : Q)
| FhsaInitialOverLifetime (initial : Q)
| FhsaLifetimeHit (yearsUntilLimit : Z)
| RespLifetimeExceeded (total : Q)
| RespInitialOverLifetime (initial : Q).

(** The confirmation texts: "Your annual contribution of <annual> is
    within the TFSA limit.", "... is within your RRSP limit of <limit>.",
    "... is within the FHSA limits." and "... of <annual>/year is within
    the RESP lifetime limit." *)
Inductive Confirmation : Set :=
| TfsaWithin (annual : Q)
| RrspWithin (annual limit : Q)
| FhsaWithin (annual : Q)
| RespWithin (annual : Q).

(** The CESG grant of the RESP branch: 20% of the annual contribution,
    at most 500 a year. *)
Definition cesgOf (annual : Q) : Q := Math_min (annual * 0.20) 500.

(** Account-specific annual contributions as a monthly equivalent. *)
Definition effectiveMonthly (s : State) : Q :=
  match accountType s with
  | TFSA => parseField (tfsaAnnualContribution s) / 12
  | RRSP => parseField (rrspAnnualContribution s) / 12
  | FHSA => parseField (fhsaAnnualContribution s) / 12
  | RESP =>
      let annual := parseField (respAnnualContribution s) in
      let cesg := cesgOf annual in
      (annual + cesg) / 12
  | General | Unselected => parseField (monthlyContribution s)
  end.

Definition results (s : State) : option Projection :=
  resultsOf (parseField (initialInvestment s)) (effectiveMonthly s)
    (parseYears (lengthOfTime s)) (parseField (annualReturn s))
    (compoundFrequency s).

Definition chartData (s : State) : option (list YearlyPoint.t) :=
  chartDataOf (parseField (initialInvestment s)) (effectiveMonthly s)
    (parseYears (lengthOfTime s)) (parseField (annualReturn s))
    (compoundFrequency s).

Definition comparisonScenarios (s : State) : option (list Scenario.t) :=
  comparisonScenariosOf (parseField (initialInvestment s))
    (effectiveMonthly s) (parseYears (lengthOfTime s))
    (parseField (annualReturn s)) (compoundFrequency s).

Definition accountWarning (s : State) : option Warning :=
  match accountType s with
  | Unselected | General => None
  | TFSA =>
      let annual := parseField (tfsaAnnualContribution s) in
      if Qgtb annual 7000 then Some TfsaOverAnnual else None
  | RRSP =>
      let income := parseField (rrspAnnualIncome s) in
      let annual := parseField (rrspAnnualContribution s) in
      if Qgtb annual 0 && Qgtb income 0 then
        let limit := Math_min (income * 0.18) 31560 in
        if Qgtb annual limit then Some (RrspOverLimit annual limit)
        else None
      else None
  | FHSA =>
      let initial := parseField (initialInvestment s) in
      let annual := parseField (fhsaAnnualContribution s) in
      if Qgtb annual 8000 then Some (FhsaOverAnnual annual)
      else if Qgtb initial 40000 then Some (FhsaInitialOverLifetime initial)
      else
        let years := parseYears (lengthOfTime s) in
        if Qgtb annual 0 && Qgtb (annual * inject_Z years) 40000 then
          let yearsUntilLimit := Math_floor (40000 / annual) in
          Some (FhsaLifetimeHit yearsUntilLimit)
        else None
  | RESP =>
      let initial := parseField (initialInvestment s) in
      let annual := parseField (respAnnualContribution s) in
      let years := parseYears (lengthOfTime s) in
      if Qgtb annual 0 && Qgtb (annual * inject_Z years) 50000 then
        Some (RespLifetimeExceeded (annual * inject_Z years))
      else if Qgtb initial 50000 then Some (RespInitialOverLifetime initial)
      else None
  end.

Definition accountConfirmation (s : State) : option Confirmation :=
  match accountType s with
  | TFSA =>
      let annual := parseField (tfsaAnnualContribution s) in
      if Qgtb annual 0 && Qle_bool annual 7000
      then Some (TfsaWithin annual) else None
  | RRSP =>
      let income := parseField (rrspAnnualIncome s) in
      let annual := parseField (rrspAnnualContribution s) in
      if Qgtb annual 0 && Qgtb income 0 then
        let limit := Math_min (income * 0.18) 31560 in
        if Qle_bool annual limit then Some (RrspWithin annual limit)
        else None
      else None
  | FHSA =>
      let annual := parseField (fhsaAnnualContribution s) in
      let years := parseYears (lengthOfTime s) in
      if Qgtb annual 0 && Qle_bool annual 8000
         && Qle_bool (annual * inject_Z years) 40000
      then Some (FhsaWithin annual) else None
  | RESP =>
      let annual := parseField (respAnnualContribution s) in
      let years := parseYears (lengthOfTime s) in
      if Qgtb annual 0 && Qle_bool (annual * inject_Z years) 50000
      then Some (RespWithin annual) else None
  | General | Unselected => None
  end.

End AccountPage.

(** ** The horizon as the code receives it

    The definitions above take the horizon as a whole number of years.
    The pages read the year field with [parseFloat], so the gate, the loop
    and the projection also receive horizons that are not whole (0.5,
    7.5).  This module embeds the same functions for a rational horizon.
    The loop counter [t] stays an integer, so the trajectory needs powers
    at integer exponents only.  The projection raises to [n * years],
    which need not be an integer; [Math.pow] at such an exponent is not a
    rational in general and is a parameter, [pow_fraction], about which
    nothing is assumed. *)
Module Num.

(** One element of the [comparisonScenarios] array. *)
Module Scenario.
Record t : Set := mk {
  label : string;
  years : Q;
  totalBalance : Q;
  highlight : bool;
  missedAmount : Q
}.
End Scenario.

Definition isValidInputs (initial monthly years returnRate : Q) : bool :=
  (Qgtb initial 0 || Qgtb monthly 0)
  && Qgtb years 0
  && Qle_bool years 100
  && Qgeb returnRate 0
  && Qle_bool returnRate 100.

Section Trajectory.

Variables initialInvestment monthlyContribution annualReturn years : Q.
Variable frequency : CompoundFrequency.

(** [new Set([0, round(years * 0.25), round(years * 0.5),
    round(years * 0.75), years])] *)
Definition labelYears : list Q :=
  [ 0;
    inject_Z (Math_round (years * 0.25));
    inject_Z (Math_round (years * 0.5));
    inject_Z (Math_round (years * 0.75));
    years ].

(** [labelYears.has(t)] *)
Definition labelYears_has (t : Z) : bool :=
  existsb (Qeq_bool (inject_Z t)) labelYears.

(** The object pushed by one iteration of the loop. *)
Definition yearlyPoint (t : Z) : YearlyPoint.t :=
  let r := annualReturn / 100 in
  let n := getCompoundFrequencyPerYear frequency in
  let PMT := getContributionPerPeriod monthlyContribution frequency in
  let compoundPrincipal := compoundPrincipalAt initialInvestment r n t in
  let annuityValue := annuityValueAt PMT r n t in
  let totalBalance := compoundPrincipal + annuityValue in
  let totalContributed :=
    initialInvestment + monthlyContribution * 12 * inject_Z t in
  YearlyPoint.mk t totalBalance totalContributed (labelYears_has t).

(** [for (let t = ...; t <= years; t++) data.push(...)], run for at most
    [fuel] iterations from loop state [(t, data)]. *)
Fixpoint yearlyLoop (fuel : nat) (t : Z) (data : list YearlyPoint.t)
  : list YearlyPoint.t :=
  match fuel with
  | O => data
  | S fuel' =>
      if Qle_bool (inject_Z t) years
      then yearlyLoop fuel' (t + 1) (data ++ [yearlyPoint t])
      else data
  end.

(** The loop starts at [t = 0] with [data = []]; it leaves after
    [floor(years) + 1] iterations, which is the fuel given. *)
Definition calculateYearlyData : list YearlyPoint.t :=
  yearlyLoop (Z.to_nat (Qfloor years + 1)) 0 [].

End Trajectory.

Section Projection.

(** [Math.pow(b, e)] for an exponent [e] that is not an integer. *)
Variable pow_fraction : Q -> Q -> Q.

(** [Math.pow(b, e)] *)
Definition Math_pow (b e : Q) : Q :=
  if Qeq_bool e (inject_Z (Qfloor e)) then b ^ Qfloor e
  else pow_fraction b e.

Definition calculateCompoundInterest
  (initialInvestment monthlyContribution annualReturn years : Q)
  (frequency : CompoundFrequency) : Projection :=
  let P := initialInvestment in
  let r := annualReturn / 100 in
  let n := inject_Z (getCompoundFrequencyPerYear frequency) in
  let t := years in
  let PMT := getContributionPerPeriod monthlyContribution frequency in
  let compoundPrincipal := P * Math_pow (1 + r / n) (n * t) in
  let annuityValue :=
    if Qgtb r 0
    then PMT * ((Math_pow (1 + r / n) (n * t) - 1) / (r / n))
    else PMT * n * t in
  let totalBalance := compoundPrincipal + annuityValue in
  let totalContributed := P + monthlyContribution * 12 * t in
  let totalInterest := totalBalance - totalContributed in
  mkProjection totalBalance totalContributed totalInterest.

Variables initial monthly years returnRate : Q.
Variable compoundFrequency : CompoundFrequency.

Definition resultsOf : option Projection :=
  if negb (isValidInputs initial monthly years returnRate) then None
  else Some (calculateCompoundInterest
               initial monthly returnRate years compoundFrequency).

Definition chartDataOf : option (list YearlyPoint.t) :=
  if negb (isValidInputs initial monthly years returnRate) then None
  else Some (calculateYearlyData
               initial monthly returnRate years compoundFrequency).

Definition comparisonScenariosOf : option (list Scenario.t) :=
  if negb (isValidInputs initial monthly years returnRate) then None
  else
    let startNow :=
      calculateCompoundInterest
        initial monthly returnRate years compoundFrequency in
    let startNowBalance := totalBalance startNow in
    let scenarios :=
      [ Scenario.mk "Start Now" years startNowBalance true 0 ] in
    let scenarios :=
      if Qgeb years 5 then
        let wait5 :=
          calculateCompoundInterest
            initial monthly returnRate (years - 5) compoundFrequency in
        scenarios ++
        [ Scenario.mk "Wait 5 Years" (years - 5) (totalBalance wait5) false
            (startNowBalance - totalBalance wait5) ]
      else scenarios in
    let scenarios :=
      if Qgeb years 10 then
        let wait10 :=
          calculateCompoundInterest
            initial monthly returnRate (years - 10) compoundFrequency in
        scenarios ++
        [ Scenario.mk "Wait 10 Years" (years - 10) (totalBalance wait10) false
            (startNowBalance - totalBalance wait10) ]
      else scenarios in
    Some scenarios.

End Projection.

End Num.

(** ** The balance calculator on doubles

    The same helper functions on binary64 numbers, with the operations of
    the language: every [+], [-], [*], [/] rounds to nearest.  The
    frequency and the horizon are whole numbers here. *)
Module Float64.

(** A whole number as a double (exact up to 2^53). *)
Definition ofZ (z : Z) : float :=
  if (z <? 0)%Z
  then (- of_uint63 (Uint63.of_Z (- z)))%float
  else of_uint63 (Uint63.of_Z z).

(** [Math.pow(b, e)] at an integer exponent.  The language leaves the
    value to the implementation, up to an approximation; repeated
    multiplication stands for it.  The lemmas below evaluate it only where
    every implementation agrees: at base 1, where the value is 1, and at
    exponent 1, where the value is the base. *)
Definition Math_pow (b : float) (e : Z) : float :=
  match e with
  | Z0 => 1%float
  | Zpos p => Pos.iter (fun acc => (acc * b)%float) 1%float p
  | Zneg p => (1 / Pos.iter (fun acc => (acc * b)%float) 1 p)%float
  end.

Definition getContributionPerPeriod
  (monthlyContribution : float) (frequency : CompoundFrequency) : float :=
  match frequency with
  | Annually => (monthlyContribution * 12)%float
  | SemiAnnually => (monthlyContribution * 6)%float
  | Quarterly => (monthlyContribution * 3)%float
  | Monthly => monthlyContribution
  | Daily => (monthlyContribution / (365 / 12))%float
  end.

Record Projection : Set := mkProjection {
  totalBalance : float;
  totalContributed : float;
  totalInterest : float
}.

Definition calculateCompoundInterest
  (initialInvestment monthlyContribution annualReturn : float) (years : Z)
  (frequency : CompoundFrequency) : Projection :=
  let P := initialInvestment in
  let r := (annualReturn / 100)%float in
  let n := getCompoundFrequencyPerYear frequency in
  let t := years in
  let PMT := getContributionPerPeriod monthlyContribution frequency in
  let compoundPrincipal :=
    (P * Math_pow (1 + r / ofZ n) (n * t))%float in
  let annuityValue :=
    if (0 <? r)%float
    then (PMT * ((Math_pow (1 + r / ofZ n) (n * t) - 1) / (r / ofZ n)))%float
    else (PMT * ofZ n * ofZ t)%float in
  let totalBalance := (compoundPrincipal + annuityValue)%float in
  let totalContributed := (P + monthlyContribution * 12 * ofZ t)%float in
  let totalInterest := (totalBalance - totalContributed)%float in
  mkProjection totalBalance totalContributed totalInterest.

End Float64.

(** ** What the pages display *)


(** The plain page after [setMonthlyContribution(v)]. *)
Definition Page_setMonthlyContribution (s : Page.State) (v : option Q)
  : Page.State :=
  Page.mkState (Page.initialInvestment s) v (Page.lengthOfTime s)
    (Page.annualReturn s) (Page.compoundFrequency s) (Page.accountType s).

(** * Properties *)

(** ** Comparisons *)

Lemma Qgtb_true_iff (x y : Q) : Qgtb x y = true <-> y < x.
Proof.
  unfold Qgtb. rewrite negb_true_iff. split; intro H.
  - apply Qnot_le_lt. intro Hle. apply Qle_bool_iff in Hle. congruence.
  - destruct (Qle_bool x y) eqn:E; [|reflexivity].
    apply Qle_bool_iff in E. exfalso. apply (Qlt_not_le _ _ H E).
Qed.

Lemma Qgtb_false_iff (x y : Q) : Qgtb x y = false <-> x <= y.
Proof.
  unfold Qgtb. rewrite negb_false_iff. apply Qle_bool_iff.
Qed.

Lemma Qle_bool_false_iff (x y : Q) : Qle_bool x y = false <-> y < x.
Proof.
  rewrite <- Qgtb_true_iff. unfold Qgtb. now rewrite negb_true_iff.
Qed.

Lemma Qgeb_true_iff (x y : Q) : Qgeb x y = true <-> y <= x.
Proof. apply Qle_bool_iff. Qed.

Lemma Qmult_le_nonneg_l (x y z : Q) : x <= y -> 0 <= z -> z * x <= z * y.
Proof. intros Hxy Hz. nra. Qed.

(** ** Frequencies *)

Lemma periods_positive (F : CompoundFrequency) :
  (0 < getCompoundFrequencyPerYear F)%Z.
Proof. destruct F; reflexivity. Qed.

Lemma periods_positive_Q (F : CompoundFrequency) :
  0 < inject_Z (getCompoundFrequencyPerYear F).
Proof. destruct F; reflexivity. Qed.

Lemma contribution_per_year (M : Q) (F : CompoundFrequency) :
  getContributionPerPeriod M F * inject_Z (getCompoundFrequencyPerYear F)
  == M * 12.
Proof. destruct F; simpl; field. Qed.

Lemma contribution_nonneg (M : Q) (F : CompoundFrequency) :
  0 <= M -> 0 <= getContributionPerPeriod M F.
Proof.
  intros HM. destruct F; simpl; try lra.
  apply Qle_shift_div_l; [reflexivity | lra].
Qed.

(** ** The growth factor [(1 + r/n)^(n*t)] *)

Section Growth.

Variables (r : Q) (n : Z).
Hypothesis r_nonneg : 0 <= r.
Hypothesis n_pos : (0 < n)%Z.

Let x : Q := r / inject_Z n.

Lemma n_pos_Q : 0 < inject_Z n.
Proof. change 0 with (inject_Z 0). rewrite <- Zlt_Qlt. exact n_pos. Qed.

Lemma rate_per_period_nonneg : 0 <= x.
Proof. apply Qle_shift_div_l; [exact n_pos_Q | lra]. Qed.

Lemma base_ge_1 : 1 <= 1 + x.
Proof. pose proof rate_per_period_nonneg. lra. Qed.

Lemma growth_monotone (t1 t2 : Z) :
  (t1 <= t2)%Z ->
  Math_pow (1 + x) (n * t1) <= Math_pow (1 + x) (n * t2).
Proof.
  intros Ht. unfold Math_pow. apply Qpower_le_compat_l; [|exact base_ge_1].
  apply Z.mul_le_mono_nonneg_l; lia.
Qed.




End Growth.

(** ** The balance calculator *)

Lemma annuity_positive_rate (PMT r : Q) (n t : Z) :
  0 < r ->
  annuityValueAt PMT r n t
  = PMT * ((Math_pow (1 + r / inject_Z n) (n * t) - 1) / (r / inject_Z n)).
Proof.
  intros Hr. unfold annuityValueAt.
  now rewrite (proj2 (Qgtb_true_iff r 0) Hr).
Qed.

Lemma annuity_zero_rate (PMT r : Q) (n t : Z) :
  r <= 0 ->
  annuityValueAt PMT r n t = PMT * inject_Z n * inject_Z t.
Proof.
  intros Hr. unfold annuityValueAt.
  now rewrite (proj2 (Qgtb_false_iff r 0) Hr).
Qed.


(** The annuity summand grows with the horizon. *)
Lemma annuity_monotone (PMT r : Q) (n t1 t2 : Z) :
  0 <= PMT -> 0 <= r -> (0 < n)%Z -> (t1 <= t2)%Z ->
  annuityValueAt PMT r n t1 <= annuityValueAt PMT r n t2.
Proof.
  intros HP Hr Hn Ht.
  pose proof (n_pos_Q n Hn) as HnQ.
  destruct (Qlt_le_dec 0 r) as [Hpos | Hzero].
  - rewrite !annuity_positive_rate by exact Hpos.
    assert (0 < r / inject_Z n) as Hx by (apply Qlt_shift_div_l; lra).
    pose proof (growth_monotone r n Hr Hn t1 t2 Ht) as Hg.
    cbv zeta in Hg.
    apply Qmult_le_nonneg_l; [|exact HP].
    set (x := r / inject_Z n) in *.
    set (g1 := Math_pow (1 + x) (n * t1)) in *.
    set (g2 := Math_pow (1 + x) (n * t2)) in *.
    apply Qle_shift_div_l; [exact Hx|].
    assert ((g1 - 1) / x * x == g1 - 1) as E by (field; lra).
    rewrite E. lra.
  - rewrite !annuity_zero_rate by exact Hzero.
    assert (inject_Z t1 <= inject_Z t2) as HtQ by (now rewrite <- Zle_Qle).
    assert (0 <= PMT * inject_Z n) as Hc by nra.
    now apply Qmult_le_nonneg_l.
Qed.

Lemma principal_monotone (P r : Q) (n t1 t2 : Z) :
  0 <= P -> 0 <= r -> (0 < n)%Z -> (t1 <= t2)%Z ->
  compoundPrincipalAt P r n t1 <= compoundPrincipalAt P r n t2.
Proof.
  intros HP Hr Hn Ht. unfold compoundPrincipalAt.
  pose proof (growth_monotone r n Hr Hn t1 t2 Ht) as Hg. cbv zeta in Hg.
  apply Qmult_le_nonneg_l; assumption.
Qed.

Lemma rate_fraction_nonneg (R : Q) : 0 <= R -> 0 <= R / 100.
Proof. intros HR. apply Qle_shift_div_l; [reflexivity | lra]. Qed.

(** [totalBalance] is non-decreasing in the horizon. *)
Lemma balance_monotone (P M R : Q) (F : CompoundFrequency) (T1 T2 : Z) :
  0 <= P -> 0 <= M -> 0 <= R -> (T1 <= T2)%Z ->
  totalBalance (calculateCompoundInterest P M R T1 F)
  <= totalBalance (calculateCompoundInterest P M R T2 F).
Proof.
  intros HP HM HR HT. simpl.
  pose proof (rate_fraction_nonneg R HR) as Hr.
  pose proof (periods_positive F) as Hn.
  apply Qplus_le_compat.
  - now apply principal_monotone.
  - apply annuity_monotone; auto using contribution_nonneg.
Qed.

(** C1.  For a valid input (P >= 0, M >= 0, R in [0,100], T >= 1, any
    frequency F) [calculateCompoundInterest] returns
    totalBalance = P*(1 + r/n)^(n*T) + annuityValue, with r = R/100,
    n the periods per year of F and PMT the per-period contribution, where
    annuityValue is PMT*((1 + r/n)^(n*T) - 1)/(r/n) when r > 0 and PMT*n*T
    when r = 0; totalContributed = P + M*12*T whatever F is; and
    totalInterest = totalBalance - totalContributed. *)
Theorem calculateCompoundInterest_formula
  (P M R : Q) (T : Z) (F : CompoundFrequency) :
  0 <= P -> 0 <= M -> 0 <= R <= 100 -> (1 <= T)%Z ->
  let r := R / 100 in
  let n := getCompoundFrequencyPerYear F in
  let PMT := getContributionPerPeriod M F in
  let growth := (1 + r / inject_Z n) ^ (n * T) in
  let res := calculateCompoundInterest P M R T F in
  (0 < r ->
   totalBalance res
   == P * growth + PMT * ((growth - 1) / (r / inject_Z n)))
  /\ (r == 0 ->
      totalBalance res == P * growth + PMT * inject_Z n * inject_Z T)
  /\ totalContributed res == P + M * 12 * inject_Z T
  /\ totalInterest res == totalBalance res - totalContributed res.
Proof.
  intros _ _ _ _ r n PMT growth res. subst res. simpl.
  fold r n PMT. unfold compoundPrincipalAt. fold growth.
  repeat split; try reflexivity.
  - intros Hr. rewrite annuity_positive_rate by exact Hr. reflexivity.
  - intros Hr. rewrite annuity_zero_rate by (rewrite Hr; apply Qle_refl).
    reflexivity.
Qed.

Lemma calculateCompoundInterest_formula_witness :
  let res := calculateCompoundInterest 1000 100 6 1 Annually in
  totalBalance res == 2260 /\ totalContributed res == 2200
  /\ totalInterest res == 60.
Proof.
  destruct (calculateCompoundInterest_formula 1000 100 6 1 Annually)
    as (Hb & _ & Hc & Hi).
  - discriminate.
  - discriminate.
  - split; discriminate.
  - reflexivity.
  - cbv zeta in *.
    assert (0 < 6 / 100) as Hr by reflexivity.
    specialize (Hb Hr).
    split; [|split].
    + rewrite Hb. reflexivity.
    + rewrite Hc. reflexivity.
    + rewrite Hi, Hb, Hc. reflexivity.
Defined.

(** C5.  At annual rate 0 and for every frequency, Daily included,
    [calculateCompoundInterest P M 0 T F] has totalBalance = P + M*12*T
    in exact arithmetic, so totalInterest = 0, for all P >= 0, M >= 0,
    T >= 0. *)
Theorem zero_rate_balance (P M : Q) (T : Z) (F : CompoundFrequency) :
  0 <= P -> 0 <= M -> (0 <= T)%Z ->
  let res := calculateCompoundInterest P M 0 T F in
  totalBalance res == P + M * 12 * inject_Z T
  /\ totalInterest res == 0.
Proof.
  intros _ _ _ res.
  assert (totalBalance res == P + M * 12 * inject_Z T) as Hb.
  { subst res. simpl.
    rewrite annuity_zero_rate by discriminate.
    unfold compoundPrincipalAt, Math_pow.
    assert (1 + 0 / 100 / inject_Z (getCompoundFrequencyPerYear F) == 1)
      as E by (destruct F; reflexivity).
    rewrite E, Qpower_1, (contribution_per_year M F). ring. }
  split; [exact Hb|].
  change (totalInterest res) with (totalBalance res - totalContributed res).
  rewrite Hb. subst res. simpl. ring.
Qed.

Lemma zero_rate_balance_witness :
  totalBalance (calculateCompoundInterest 1000 50 0 3 Daily) == 2800
  /\ totalInterest (calculateCompoundInterest 1000 50 0 3 Daily) == 0.
Proof.
  destruct (zero_rate_balance 1000 50 3 Daily) as (Hb & Hi).
  - discriminate.
  - discriminate.
  - discriminate.
  - split; [rewrite Hb; reflexivity | exact Hi].
Defined.




(** ** The validity gate *)

Lemma isValidInputs_true_iff (P M : Q) (T : Z) (R : Q) :
  isValidInputs P M T R = true
  <-> (0 < P \/ 0 < M) /\ (1 <= T <= 100)%Z /\ 0 <= R <= 100.
Proof.
  unfold isValidInputs.
  rewrite !andb_true_iff, orb_true_iff, !Qgtb_true_iff, Qgeb_true_iff,
    Qle_bool_iff, Z.gtb_lt, Z.leb_le.
  intuition lia.
Qed.

Lemma gate_closed (P M : Q) (T : Z) (R : Q) (F : CompoundFrequency) :
  isValidInputs P M T R = false ->
  resultsOf P M T R F = None
  /\ chartDataOf P M T R F = None
  /\ comparisonScenariosOf P M T R F = None.
Proof.
  intros H. unfold resultsOf, chartDataOf, comparisonScenariosOf.
  rewrite H. auto.
Qed.

Lemma gate_open (P M : Q) (T : Z) (R : Q) (F : CompoundFrequency) :
  isValidInputs P M T R = true ->
  resultsOf P M T R F = Some (calculateCompoundInterest P M R T F)
  /\ chartDataOf P M T R F = Some (calculateYearlyData P M R T F).
Proof.
  intros H. unfold resultsOf, chartDataOf. rewrite H. auto.
Qed.

(** The same gate on the integer horizon and on the number it is read
    from. *)
Lemma isValidInputs_whole_years (P M : Q) (T : Z) (R : Q) :
  Num.isValidInputs P M (inject_Z T) R = isValidInputs P M T R.
Proof.
  unfold Num.isValidInputs, isValidInputs.
  assert (Qgtb (inject_Z T) 0 = (T >? 0)%Z) as E1.
  { destruct (Z.gtb_spec T 0) as [H | H].
    - apply Qgtb_true_iff. change 0 with (inject_Z 0).
      now rewrite <- Zlt_Qlt.
    - apply Qgtb_false_iff. change 0 with (inject_Z 0).
      now rewrite <- Zle_Qle. }
  assert (Qle_bool (inject_Z T) 100 = (T <=? 100)%Z) as E2.
  { destruct (Z.leb_spec T 100) as [H | H].
    - apply Qle_bool_iff. change 100 with (inject_Z 100).
      now rewrite <- Zle_Qle.
    - apply Qle_bool_false_iff. change 100 with (inject_Z 100).
      now rewrite <- Zlt_Qlt. }
  now rewrite E1, E2.
Qed.

Lemma num_isValidInputs_true_iff (P M T R : Q) :
  Num.isValidInputs P M T R = true
  <-> (0 < P \/ 0 < M) /\ (0 < T /\ T <= 100) /\ 0 <= R <= 100.
Proof.
  unfold Num.isValidInputs.
  rewrite !andb_true_iff, orb_true_iff, !Qgtb_true_iff, Qgeb_true_iff,
    !Qle_bool_iff.
  tauto.
Qed.

Lemma num_gate_closed
  (pw : Q -> Q -> Q) (P M T R : Q) (F : CompoundFrequency) :
  Num.isValidInputs P M T R = false ->
  Num.resultsOf pw P M T R F = None
  /\ Num.chartDataOf P M T R F = None
  /\ Num.comparisonScenariosOf pw P M T R F = None.
Proof.
  intros H.
  unfold Num.resultsOf, Num.chartDataOf, Num.comparisonScenariosOf.
  rewrite H. auto.
Qed.

Lemma num_gate_open
  (pw : Q -> Q -> Q) (P M T R : Q) (F : CompoundFrequency) :
  Num.isValidInputs P M T R = true ->
  Num.resultsOf pw P M T R F
  = Some (Num.calculateCompoundInterest pw P M R T F)
  /\ Num.chartDataOf P M T R F = Some (Num.calculateYearlyData P M R T F).
Proof.
  intros H. unfold Num.resultsOf, Num.chartDataOf. rewrite H. auto.
Qed.

(** C2, as the code has it.  After the fields are parsed an input is
    valid exactly when (initial > 0 or monthly > 0), the horizon is above
    0 and at most 100, and the rate is in [0,100]; for a whole number of
    years this is the horizon in [1,100].  For every input that fails
    this, in particular when initial and monthly are both 0, the
    projection result, the trajectory and the comparison scenarios are all
    [None]; the bodies that compute them are the same on both pages. *)
Theorem invalid_input_no_output :
  (forall P M T R : Q,
      Num.isValidInputs P M T R = true
      <-> (0 < P \/ 0 < M) /\ (0 < T /\ T <= 100) /\ 0 <= R <= 100)
  /\ (forall (P M : Q) (T : Z) (R : Q),
        Num.isValidInputs P M (inject_Z T) R = true
        <-> (0 < P \/ 0 < M) /\ (1 <= T <= 100)%Z /\ 0 <= R <= 100)
  /\ (forall (pw : Q -> Q -> Q) (P M T R : Q) (F : CompoundFrequency),
        ~ ((0 < P \/ 0 < M) /\ (0 < T /\ T <= 100) /\ 0 <= R <= 100) ->
        Num.resultsOf pw P M T R F = None
        /\ Num.chartDataOf P M T R F = None
        /\ Num.comparisonScenariosOf pw P M T R F = None)
  /\ (forall (pw : Q -> Q -> Q) (P M T R : Q) (F : CompoundFrequency),
        P == 0 -> M == 0 ->
        Num.resultsOf pw P M T R F = None
        /\ Num.chartDataOf P M T R F = None
        /\ Num.comparisonScenariosOf pw P M T R F = None).
Proof.
  split; [exact num_isValidInputs_true_iff|].
  split; [|split].
  - intros P M T R. rewrite isValidInputs_whole_years.
    apply isValidInputs_true_iff.
  - intros pw P M T R F Hbad. apply num_gate_closed.
    apply not_true_is_false. now rewrite num_isValidInputs_true_iff.
  - intros pw P M T R F HP HM. apply num_gate_closed.
    apply not_true_is_false. rewrite num_isValidInputs_true_iff.
    intros [[H | H] _]; lra.
Qed.

Lemma invalid_input_no_output_witness :
  Num.resultsOf (fun _ _ => 0) 0 0 30 7 Monthly = None
  /\ Num.chartDataOf 0 0 30 7 Monthly = None
  /\ Num.comparisonScenariosOf (fun _ _ => 0) 0 0 30 7 Monthly = None.
Proof.
  destruct invalid_input_no_output as (_ & _ & Hbad & _).
  apply Hbad. intros [[H | H] _]; discriminate H.
Defined.

(** C2, as the claim has it, fails: a horizon of half a year is not in
    [1,100], yet the gate is open, and with an initial investment of 1,000
    at 5% the trajectory is produced, with its one point for year 0. *)
Lemma half_year_horizon_is_valid :
  ~ 1 <= (1 # 2)
  /\ Num.isValidInputs 1000 0 (1 # 2) 5 = true
  /\ (exists p,
         Num.chartDataOf 1000 0 (1 # 2) 5 Monthly = Some [p]
         /\ YearlyPoint.year p = 0%Z
         /\ YearlyPoint.totalBalance p == 1000)
  /\ Num.resultsOf (fun _ _ => 0) 1000 0 (1 # 2) 5 Monthly <> None
  /\ Num.comparisonScenariosOf (fun _ _ => 0) 1000 0 (1 # 2) 5 Monthly
     <> None.
Proof.
  split; [intros H; now apply H|]. split; [reflexivity|].
  split; [|split; discriminate].
  eexists. split; [reflexivity|]. split; reflexivity.
Defined.

(** ** The trajectory generator *)

Section Trajectory.

Variables P M R : Q.
Variable T : Z.
Variable F : CompoundFrequency.

Let point (t : Z) : YearlyPoint.t := yearlyPoint P M R T F t.
Let loop := yearlyLoop P M R T F.

(** Iterations still to run when the loop counter is [t]. *)
Let remaining (t : Z) : nat := Z.to_nat (T + 1 - t).

(** With at least [remaining t] fuel the loop runs until its own test
    fails, and pushes the points of the years [t], [t+1], ..., [T]. *)
Lemma yearlyLoop_runs (fuel : nat) :
  forall (t : Z) (data : list YearlyPoint.t),
    (remaining t <= fuel)%nat ->
    loop fuel t data
    = data ++ map (fun i => point (t + Z.of_nat i)) (seq 0 (remaining t)).
Proof.
  unfold loop, remaining.
  induction fuel as [|fuel IH]; intros t data Hfuel.
  - replace (Z.to_nat (T + 1 - t)) with 0%nat by lia.
    simpl. now rewrite app_nil_r.
  - simpl. destruct (Z.leb_spec t T) as [Hle | Hgt].
    + rewrite IH by lia.
      replace (Z.to_nat (T + 1 - t)) with (S (Z.to_nat (T + 1 - (t + 1))))
        by lia.
      rewrite <- app_assoc. f_equal. simpl. rewrite Z.add_0_r. f_equal.
      rewrite <- seq_shift, map_map. apply map_ext. intros i.
      f_equal. lia.
    + replace (Z.to_nat (T + 1 - t)) with 0%nat by lia.
      simpl. now rewrite app_nil_r.
Qed.

Lemma calculateYearlyData_points :
  calculateYearlyData P M R T F
  = map (fun i => point (Z.of_nat i)) (seq 0 (Z.to_nat (T + 1))).
Proof.
  unfold calculateYearlyData. fold loop.
  rewrite yearlyLoop_runs by (unfold remaining; lia).
  unfold remaining. rewrite Z.sub_0_r. reflexivity.
Qed.

Lemma yearlyLoop_more_fuel (extra : nat) :
  loop (Z.to_nat (T + 1) + extra)%nat 0%Z [] = calculateYearlyData P M R T F.
Proof.
  rewrite calculateYearlyData_points.
  rewrite yearlyLoop_runs by (unfold remaining; lia).
  unfold remaining. rewrite Z.sub_0_r. reflexivity.
Qed.

Lemma calculateYearlyData_length :
  List.length (calculateYearlyData P M R T F) = Z.to_nat (T + 1).
Proof.
  now rewrite calculateYearlyData_points, length_map, length_seq.
Qed.

Lemma calculateYearlyData_years :
  map YearlyPoint.year (calculateYearlyData P M R T F)
  = map Z.of_nat (seq 0 (Z.to_nat (T + 1))).
Proof.
  rewrite calculateYearlyData_points, map_map. reflexivity.
Qed.

Lemma calculateYearlyData_nth (t : Z) :
  (0 <= t <= T)%Z ->
  nth_error (calculateYearlyData P M R T F) (Z.to_nat t) = Some (point t).
Proof.
  intros Ht. rewrite calculateYearlyData_points.
  rewrite nth_error_map, nth_error_seq.
  destruct (Nat.ltb_spec (Z.to_nat t) (Z.to_nat (T + 1))) as [_ | Hge];
    [|lia].
  simpl. now rewrite Z2Nat.id by lia.
Qed.

End Trajectory.

(** *** The trajectory for a horizon that need not be whole *)

Lemma loop_test_floor (t : Z) (y : Q) :
  Qle_bool (inject_Z t) y = (t <=? Qfloor y)%Z.
Proof.
  destruct (Z.leb_spec t (Qfloor y)) as [H | H].
  - apply Qle_bool_iff. apply Qle_trans with (inject_Z (Qfloor y)).
    + now rewrite <- Zle_Qle.
    + apply Qfloor_le.
  - apply Qle_bool_false_iff.
    apply Qlt_le_trans with (inject_Z (Qfloor y + 1)).
    + apply Qlt_floor.
    + rewrite <- Zle_Qle. lia.
Qed.

Section NumTrajectory.

Variables P M R T : Q.
Variable F : CompoundFrequency.

Let point (t : Z) : YearlyPoint.t := Num.yearlyPoint P M R T F t.
Let loop := Num.yearlyLoop P M R T F.
Let remaining (t : Z) : nat := Z.to_nat (Qfloor T + 1 - t).

Lemma num_yearlyLoop_runs (fuel : nat) :
  forall (t : Z) (data : list YearlyPoint.t),
    (remaining t <= fuel)%nat ->
    loop fuel t data
    = data ++ map (fun i => point (t + Z.of_nat i)) (seq 0 (remaining t)).
Proof.
  unfold loop, remaining.
  induction fuel as [|fuel IH]; intros t data Hfuel.
  - replace (Z.to_nat (Qfloor T + 1 - t)) with 0%nat by lia.
    simpl. now rewrite app_nil_r.
  - simpl. rewrite loop_test_floor.
    destruct (Z.leb_spec t (Qfloor T)) as [Hle | Hgt].
    + rewrite IH by lia.
      replace (Z.to_nat (Qfloor T + 1 - t))
        with (S (Z.to_nat (Qfloor T + 1 - (t + 1)))) by lia.
      rewrite <- app_assoc. f_equal. simpl. rewrite Z.add_0_r. f_equal.
      rewrite <- seq_shift, map_map. apply map_ext. intros i.
      f_equal. lia.
    + replace (Z.to_nat (Qfloor T + 1 - t)) with 0%nat by lia.
      simpl. now rewrite app_nil_r.
Qed.

Lemma num_calculateYearlyData_points :
  Num.calculateYearlyData P M R T F
  = map (fun i => point (Z.of_nat i)) (seq 0 (Z.to_nat (Qfloor T + 1))).
Proof.
  unfold Num.calculateYearlyData. fold loop.
  rewrite num_yearlyLoop_runs by (unfold remaining; lia).
  unfold remaining. rewrite Z.sub_0_r. reflexivity.
Qed.

Lemma num_yearlyLoop_more_fuel (extra : nat) :
  loop (Z.to_nat (Qfloor T + 1) + extra)%nat 0%Z []
  = Num.calculateYearlyData P M R T F.
Proof.
  rewrite num_calculateYearlyData_points.
  rewrite num_yearlyLoop_runs by (unfold remaining; lia).
  unfold remaining. rewrite Z.sub_0_r. reflexivity.
Qed.

Lemma num_calculateYearlyData_length :
  List.length (Num.calculateYearlyData P M R T F)
  = Z.to_nat (Qfloor T + 1).
Proof.
  now rewrite num_calculateYearlyData_points, length_map, length_seq.
Qed.

Lemma num_calculateYearlyData_years :
  map YearlyPoint.year (Num.calculateYearlyData P M R T F)
  = map Z.of_nat (seq 0 (Z.to_nat (Qfloor T + 1))).
Proof.
  rewrite num_calculateYearlyData_points, map_map. reflexivity.
Qed.

Lemma num_calculateYearlyData_nth (t : Z) :
  (0 <= t <= Qfloor T)%Z ->
  nth_error (Num.calculateYearlyData P M R T F) (Z.to_nat t)
  = Some (point t).
Proof.
  intros Ht. rewrite num_calculateYearlyData_points.
  rewrite nth_error_map, nth_error_seq.
  destruct (Nat.ltb_spec (Z.to_nat t) (Z.to_nat (Qfloor T + 1)))
    as [_ | Hge]; [|lia].
  simpl. now rewrite Z2Nat.id by lia.
Qed.

End NumTrajectory.

(** [Math.pow] at an exponent that is a whole number of periods. *)
Lemma num_pow_whole (pw : Q -> Q -> Q) (b e : Q) (k : Z) :
  e == inject_Z k -> Num.Math_pow pw b e = b ^ k.
Proof.
  intros He. unfold Num.Math_pow.
  assert (Qfloor e = k) as Hfloor.
  { rewrite (Qfloor_comp _ _ He). apply Qfloor_Z. }
  rewrite Hfloor.
  now rewrite (proj2 (Qeq_bool_iff e (inject_Z k)) He).
Qed.

(** On a whole number of years the projection for the number read from
    the field is the projection for the integer. *)
Lemma num_projection_whole_years
  (pw : Q -> Q -> Q) (P M R T : Q) (k : Z) (F : CompoundFrequency) :
  T == inject_Z k ->
  let num := Num.calculateCompoundInterest pw P M R T F in
  let res := calculateCompoundInterest P M R k F in
  totalBalance num == totalBalance res
  /\ totalContributed num == totalContributed res
  /\ totalInterest num == totalInterest res.
Proof.
  intros HT num res.
  set (n := getCompoundFrequencyPerYear F).
  assert (inject_Z n * T == inject_Z (n * k)) as He
      by (rewrite HT, inject_Z_mult; reflexivity).
  assert (totalBalance num == totalBalance res) as Hb.
  { subst num res. simpl. fold n.
    rewrite (num_pow_whole pw _ _ _ He).
    unfold compoundPrincipalAt, annuityValueAt, Math_pow.
    destruct (Qgtb (R / 100) 0); [reflexivity|].
    now rewrite HT. }
  assert (totalContributed num == totalContributed res) as Hc.
  { subst num res. simpl. now rewrite HT. }
  repeat split; try assumption.
  change (totalInterest num) with (totalBalance num - totalContributed num).
  change (totalInterest res) with (totalBalance res - totalContributed res).
  now rewrite Hb, Hc.
Qed.

(** C3, as the code has it.  For every valid input the trajectory of
    [calculateYearlyData] has floor(T) + 1 points, for the years 0, 1, ...,
    floor(T) in this order.  When the horizon T is a whole number of years
    these are exactly T + 1 points for the years 0..T, and the last point
    carries the totalBalance and the totalContributed of
    [calculateCompoundInterest] on the same input. *)
Theorem trajectory_matches_projection
  (pw : Q -> Q -> Q) (P M R T : Q) (F : CompoundFrequency) :
  Num.isValidInputs P M T R = true ->
  let data := Num.calculateYearlyData P M R T F in
  let res := Num.calculateCompoundInterest pw P M R T F in
  Num.chartDataOf P M T R F = Some data
  /\ List.length data = Z.to_nat (Qfloor T + 1)
  /\ map YearlyPoint.year data
     = map Z.of_nat (seq 0 (Z.to_nat (Qfloor T + 1)))
  /\ (forall extra : nat,
         Num.yearlyLoop P M R T F (Z.to_nat (Qfloor T + 1) + extra) 0 []
         = data)
  /\ (forall k : Z,
         T == inject_Z k ->
         List.length data = Z.to_nat (k + 1)
         /\ map YearlyPoint.year data
            = map Z.of_nat (seq 0 (Z.to_nat (k + 1)))
         /\ exists last,
              nth_error data (Z.to_nat k) = Some last
              /\ YearlyPoint.year last = k
              /\ YearlyPoint.totalBalance last == totalBalance res
              /\ YearlyPoint.totalContributed last == totalContributed res).
Proof.
  intros Hvalid data res.
  pose proof (proj1 (num_isValidInputs_true_iff P M T R) Hvalid)
    as (_ & [HT _] & _).
  split; [apply (num_gate_open pw P M T R F Hvalid)|].
  split; [apply num_calculateYearlyData_length|].
  split; [apply num_calculateYearlyData_years|].
  split; [apply num_yearlyLoop_more_fuel|].
  intros k Hk.
  assert (Qfloor T = k) as Hfloor.
  { rewrite (Qfloor_comp _ _ Hk). apply Qfloor_Z. }
  assert (0 <= k)%Z as Hk0.
  { rewrite Hk in HT. change 0 with (inject_Z 0) in HT.
    rewrite <- Zlt_Qlt in HT. lia. }
  subst data. rewrite num_calculateYearlyData_length,
    num_calculateYearlyData_years, Hfloor.
  split; [reflexivity|]. split; [reflexivity|].
  exists (Num.yearlyPoint P M R T F k). split.
  - apply num_calculateYearlyData_nth. lia.
  - destruct (num_projection_whole_years pw P M R T k F Hk)
      as (Hb & Hc & _).
    split; [reflexivity|]. split.
    + subst res. rewrite Hb. reflexivity.
    + subst res. rewrite Hc. reflexivity.
Qed.

Lemma trajectory_matches_projection_witness :
  let data := Num.calculateYearlyData 1000 100 6 2 Annually in
  List.length data = 3%nat
  /\ map YearlyPoint.year data = [0; 1; 2]%Z
  /\ exists last,
       nth_error data 2 = Some last
       /\ YearlyPoint.totalBalance last
          == totalBalance
               (Num.calculateCompoundInterest (fun _ _ => 0)
                  1000 100 6 2 Annually).
Proof.
  destruct (trajectory_matches_projection (fun _ _ => 0)
              1000 100 6 2 Annually)
    as (_ & _ & _ & _ & Hwhole).
  - reflexivity.
  - destruct (Hwhole 2%Z) as (Hlen & Hyears & (last & Hnth & _ & Hbal & _)).
    + reflexivity.
    + split; [exact Hlen|]. split; [exact Hyears|].
      exists last. split; [exact Hnth | exact Hbal].
Defined.

(** C3, as the claim has it, fails: the horizon 7.5 passes the gate; the
    trajectory then has 8 points, which is not 7.5 + 1, and its last point
    is year 7 with balance 9,400, while the projection for 7.5 years is
    10,000 (initial 1,000, monthly 100, rate 0, monthly compounding). *)
Lemma fractional_horizon_trajectory_stops_early :
  let data := Num.calculateYearlyData 1000 100 0 (15 # 2) Monthly in
  let res :=
    Num.calculateCompoundInterest (fun _ _ => 0)
      1000 100 0 (15 # 2) Monthly in
  Num.isValidInputs 1000 100 (15 # 2) 0 = true
  /\ List.length data = 8%nat
  /\ ~ inject_Z (Z.of_nat (List.length data)) == (15 # 2) + 1
  /\ (exists last,
         nth_error data 7 = Some last
         /\ nth_error data 8 = None
         /\ YearlyPoint.year last = 7%Z
         /\ YearlyPoint.totalBalance last == 9400
         /\ totalBalance res == 10000
         /\ ~ YearlyPoint.totalBalance last == totalBalance res).
Proof.
  cbv zeta. split; [reflexivity|]. split; [reflexivity|].
  split; [discriminate|].
  eexists. split; [reflexivity|].
  split; [reflexivity|]. split; [reflexivity|].
  split; [vm_compute; reflexivity|].
  split; [vm_compute; reflexivity|].
  vm_compute. discriminate.
Defined.

(** ** The cost of waiting *)

Lemma gate_opens_on_positive_input (P M : Q) (T : Z) (R : Q) :
  0 <= R <= 100 -> 0 < M \/ 0 < P -> (1 <= T <= 100)%Z ->
  isValidInputs P M T R = true.
Proof.
  intros HR HPM HT. apply isValidInputs_true_iff. tauto.
Qed.

(** C4.  For fixed P >= 0, M >= 0, R in [0,100] and frequency F the
    totalBalance of [calculateCompoundInterest] is non-decreasing in the
    horizon T.  Hence, when R > 0 and (M > 0 or P > 0), the comparison
    scenarios, "Start Now" first, then "Wait 5 Years" when T >= 5 and
    "Wait 10 Years" when T >= 10, have non-increasing totalBalance, and the
    missedAmount of each, the baseline balance minus its own, is >= 0. *)
Theorem waiting_costs (P M R : Q) (F : CompoundFrequency) :
  0 <= P -> 0 <= M -> 0 <= R <= 100 ->
  (forall T1 T2 : Z,
      (T1 <= T2)%Z ->
      totalBalance (calculateCompoundInterest P M R T1 F)
      <= totalBalance (calculateCompoundInterest P M R T2 F))
  /\ (forall T : Z,
        0 < R -> 0 < M \/ 0 < P -> (1 <= T <= 100)%Z ->
        let balance t := totalBalance (calculateCompoundInterest P M R t F) in
        let shown :=
          (1 + (if (T >=? 5)%Z then 1 else 0)
             + (if (T >=? 10)%Z then 1 else 0))%nat in
        let l :=
          firstn shown
            [ Scenario.mk "Start Now" T (balance T) true 0;
              Scenario.mk "Wait 5 Years" (T - 5) (balance (T - 5)%Z) false
                (balance T - balance (T - 5)%Z);
              Scenario.mk "Wait 10 Years" (T - 10) (balance (T - 10)%Z) false
                (balance T - balance (T - 10)%Z) ] in
        comparisonScenariosOf P M T R F = Some l
        /\ StronglySorted
             (fun a b => Scenario.totalBalance b <= Scenario.totalBalance a) l
        /\ Forall (fun s => 0 <= Scenario.missedAmount s) l).
Proof.
  intros HP HM HR.
  assert (forall T1 T2 : Z,
             (T1 <= T2)%Z ->
             totalBalance (calculateCompoundInterest P M R T1 F)
             <= totalBalance (calculateCompoundInterest P M R T2 F)) as Hmono.
  { intros T1 T2 HT. apply balance_monotone; tauto. }
  split; [exact Hmono|].
  intros T HRpos HPM HT balance shown l.
  pose proof (gate_opens_on_positive_input P M T R HR HPM HT) as Hvalid.
  assert (balance (T - 5)%Z <= balance T) as H5 by (apply Hmono; lia).
  assert (balance (T - 10)%Z <= balance T) as H10 by (apply Hmono; lia).
  assert (balance (T - 10)%Z <= balance (T - 5)%Z) as H105
    by (apply Hmono; lia).
  unfold comparisonScenariosOf. rewrite Hvalid. subst l shown. fold balance.
  rewrite !Z.geb_leb.
  destruct (Z.leb_spec 5 T) as [G5 | G5];
    destruct (Z.leb_spec 10 T) as [G10 | G10]; try lia; simpl;
    (split; [reflexivity|]); split;
    repeat first
      [ apply SSorted_cons | apply SSorted_nil
      | apply Forall_cons | apply Forall_nil ];
    simpl; try assumption; try apply Qle_refl; lra.
Qed.

Lemma waiting_costs_witness :
  exists l,
    comparisonScenariosOf 1000 100 12 6 Annually = Some l
    /\ map Scenario.label l = ["Start Now"; "Wait 5 Years"; "Wait 10 Years"]%string
    /\ Forall (fun s => 0 <= Scenario.missedAmount s) l.
Proof.
  destruct (waiting_costs 1000 100 6 Annually) as (_ & Hscen).
  - discriminate.
  - discriminate.
  - split; discriminate.
  - destruct (Hscen 12%Z) as (Heq & _ & Hmissed).
    + reflexivity.
    + left. reflexivity.
    + lia.
    + eexists. split; [exact Heq|]. split; [reflexivity | exact Hmissed].
Defined.

(** ** The account rules *)

(** Turn the outcome of the boolean tests of the source into facts. *)
Ltac reflect_tests :=
  repeat match goal with
    | H : Qgtb _ _ = true |- _ => apply Qgtb_true_iff in H
    | H : Qgtb _ _ = false |- _ => apply Qgtb_false_iff in H
    | H : Qle_bool _ _ = true |- _ => apply Qle_bool_iff in H
    | H : Qle_bool _ _ = false |- _ => apply Qle_bool_false_iff in H
    end.

(** Decide a test of the source and keep its outcome as a fact. *)
Ltac case_test b :=
  let E := fresh "E" in destruct b eqn:E; reflect_tests.

(** Close a goal about which advisory was returned, once every test on
    the path is decided. *)
Ltac settle :=
  simpl;
  repeat split; intros;
  repeat match goal with
    | H : _ /\ _ |- _ => destruct H
    | H : Some _ = None |- _ => discriminate H
    | H : None = Some _ |- _ => discriminate H
    end;
  try reflexivity; try (exfalso; lra); try lra; try tauto.

(** The plain page has no income field: for TFSA and RRSP it compares
    twelve times the monthly contribution with the fixed annual limit of
    [ACCOUNT_LIMITS], and it has no confirmation message. *)
Lemma plain_page_annual_limit (s : Page.State) (lim : Q) :
  (Page.accountType s = TFSA /\ lim = 7000)
  \/ (Page.accountType s = RRSP /\ lim = 31560) ->
  let monthly := parseField (Page.monthlyContribution s) in
  (lim < monthly * 12 ->
   Page.accountWarning s
   = Some (Page.MonthlyOverAnnual (Page.accountType s) monthly
             (monthly * 12) lim (Math_floor (lim / 12))))
  /\ (monthly * 12 <= lim -> Page.accountWarning s = None).
Proof.
  intros Htype monthly. unfold Page.accountWarning. fold monthly.
  destruct Htype as [[Ht Hl] | [Ht Hl]]; rewrite Ht; subst lim; simpl;
    match goal with
    | |- context [Qgtb ?a ?b] => case_test (Qgtb a b)
    end; settle.
Qed.

(** C9.  With account type TFSA a warning, whose text names the fixed
    7,000 cap, is produced exactly when the annual contribution exceeds
    7,000, and a confirmation exactly when the annual contribution is
    positive and at most 7,000. *)
Theorem tfsa_advisory (s : AccountPage.State) :
  AccountPage.accountType s = TFSA ->
  let annual := parseField (AccountPage.tfsaAnnualContribution s) in
  (AccountPage.accountWarning s = Some AccountPage.TfsaOverAnnual
   <-> 7000 < annual)
  /\ (AccountPage.accountWarning s = None <-> annual <= 7000)
  /\ (AccountPage.accountConfirmation s = Some (AccountPage.TfsaWithin annual)
      <-> 0 < annual /\ annual <= 7000)
  /\ (AccountPage.accountConfirmation s = None
      <-> ~ (0 < annual /\ annual <= 7000)).
Proof.
  intros Htype annual.
  unfold AccountPage.accountWarning, AccountPage.accountConfirmation.
  rewrite Htype. fold annual.
  case_test (Qgtb annual 7000); case_test (Qgtb annual 0);
    case_test (Qle_bool annual 7000); settle.
Qed.

Lemma tfsa_advisory_witness :
  let over :=
    AccountPage.mkState None None None None Monthly TFSA
      (Some 7500) None None None None None in
  let within :=
    AccountPage.mkState None None None None Monthly TFSA
      (Some 6000) None None None None None in
  AccountPage.accountWarning over = Some AccountPage.TfsaOverAnnual
  /\ AccountPage.accountWarning within = None
  /\ AccountPage.accountConfirmation within
     = Some (AccountPage.TfsaWithin 6000).
Proof.
  intros over within.
  destruct (tfsa_advisory over eq_refl) as (Hw & _).
  destruct (tfsa_advisory within eq_refl) as (_ & Hn & Hc & _).
  split; [apply Hw; reflexivity|].
  split; [apply Hn; discriminate|].
  apply Hc. split; [reflexivity | discriminate].
Defined.

(** RRSP on the page with account-specific fields. *)
Lemma rrsp_account_page (s : AccountPage.State) :
  AccountPage.accountType s = RRSP ->
  let income := parseField (AccountPage.rrspAnnualIncome s) in
  let annual := parseField (AccountPage.rrspAnnualContribution s) in
  let cap := Math_min (income * 0.18) 31560 in
  (AccountPage.accountWarning s
   = Some (AccountPage.RrspOverLimit annual cap)
   <-> 0 < annual /\ 0 < income /\ cap < annual)
  /\ (AccountPage.accountWarning s = None
      <-> ~ (0 < annual /\ 0 < income /\ cap < annual))
  /\ (AccountPage.accountConfirmation s
      = Some (AccountPage.RrspWithin annual cap)
      <-> 0 < annual /\ 0 < income /\ annual <= cap)
  /\ (AccountPage.accountConfirmation s = None
      <-> ~ (0 < annual /\ 0 < income /\ annual <= cap))
  /\ (AccountPage.rrspAnnualIncome s = None
      \/ AccountPage.rrspAnnualContribution s = None
      \/ income == 0 \/ annual == 0 ->
      AccountPage.accountWarning s = None
      /\ AccountPage.accountConfirmation s = None).
Proof.
  intros Htype income annual cap.
  assert (AccountPage.rrspAnnualIncome s = None
          \/ AccountPage.rrspAnnualContribution s = None
          \/ income == 0 \/ annual == 0 ->
          ~ (0 < annual /\ 0 < income)) as Hmissing.
  { subst income annual.
    intros [H | [H | [H | H]]] [Ha Hi]; try rewrite H in *; simpl in *;
      lra. }
  unfold AccountPage.accountWarning, AccountPage.accountConfirmation.
  rewrite Htype. fold income annual cap.
  case_test (Qgtb annual 0); case_test (Qgtb income 0);
    case_test (Qgtb annual cap); case_test (Qle_bool annual cap);
    settle.
Qed.

(** C8, as the code has it.  On the page with account-specific fields,
    with account type RRSP the annual cap is
    min(annualIncome * 0.18, 31,560), and an advisory is produced only
    when income and contribution are both positive: then the warning,
    which carries the computed cap, is produced exactly when the
    contribution exceeds the cap, and the confirmation exactly when it is
    within the cap; when either field is missing or zero there is no
    advisory.  On the plain page, which has no income field and no
    confirmation, RRSP is checked against the flat annual limit of 31,560:
    the warning is produced exactly when twelve monthly contributions
    exceed 31,560. *)
Theorem rrsp_advisory_by_page :
  (forall s : AccountPage.State,
      AccountPage.accountType s = RRSP ->
      let income := parseField (AccountPage.rrspAnnualIncome s) in
      let annual := parseField (AccountPage.rrspAnnualContribution s) in
      let cap := Math_min (income * 0.18) 31560 in
      (AccountPage.accountWarning s
       = Some (AccountPage.RrspOverLimit annual cap)
       <-> 0 < annual /\ 0 < income /\ cap < annual)
      /\ (AccountPage.accountWarning s = None
          <-> ~ (0 < annual /\ 0 < income /\ cap < annual))
      /\ (AccountPage.accountConfirmation s
          = Some (AccountPage.RrspWithin annual cap)
          <-> 0 < annual /\ 0 < income /\ annual <= cap)
      /\ (AccountPage.accountConfirmation s = None
          <-> ~ (0 < annual /\ 0 < income /\ annual <= cap))
      /\ (AccountPage.rrspAnnualIncome s = None
          \/ AccountPage.rrspAnnualContribution s = None
          \/ income == 0 \/ annual == 0 ->
          AccountPage.accountWarning s = None
          /\ AccountPage.accountConfirmation s = None))
  /\ (forall s : Page.State,
        Page.accountType s = RRSP ->
        let monthly := parseField (Page.monthlyContribution s) in
        (Page.accountWarning s
         = Some (Page.MonthlyOverAnnual RRSP monthly (monthly * 12) 31560
                   (Math_floor (31560 / 12)))
         <-> 31560 < monthly * 12)
        /\ (Page.accountWarning s = None <-> monthly * 12 <= 31560)).
Proof.
  split; [exact rrsp_account_page|].
  intros s Htype monthly.
  destruct (plain_page_annual_limit s 31560 (or_intror (conj Htype eq_refl)))
    as [Hover Hwithin].
  fold monthly in Hover, Hwithin. rewrite Htype in Hover.
  destruct (Qlt_le_dec 31560 (monthly * 12)) as [H | H].
  - rewrite (Hover H). split; split; intros; try assumption;
      try reflexivity; try discriminate; exfalso; lra.
  - rewrite (Hwithin H). split; split; intros; try assumption;
      try reflexivity; try discriminate; exfalso; lra.
Qed.

Lemma rrsp_advisory_by_page_witness :
  let over :=
    AccountPage.mkState None None None None Monthly RRSP
      None None (Some 100000) (Some 20000) None None in
  let within :=
    AccountPage.mkState None None None None Monthly RRSP
      None None (Some 100000) (Some 15000) None None in
  let plain := Page.mkState None (Some 2000) None None Monthly RRSP in
  AccountPage.accountWarning over
  = Some (AccountPage.RrspOverLimit 20000 (Math_min (100000 * 0.18) 31560))
  /\ AccountPage.accountConfirmation within
     = Some (AccountPage.RrspWithin 15000 (Math_min (100000 * 0.18) 31560))
  /\ Page.accountWarning plain = None.
Proof.
  intros over within plain.
  destruct rrsp_advisory_by_page as [Haccount Hplain].
  destruct (Haccount over eq_refl) as (Hw & _).
  destruct (Haccount within eq_refl) as (_ & _ & Hc & _).
  destruct (Hplain plain eq_refl) as (_ & Hn).
  split; [|split].
  - apply Hw. repeat split.
  - apply Hc. repeat split. discriminate.
  - apply Hn. discriminate.
Defined.

(** C8, as the claim has it, fails on the plain page: with RRSP selected
    and a monthly contribution of 3,000 no income is supplied, there is
    no income field, yet a warning is produced, and the limit it carries
    is the flat 31,560. *)
Lemma rrsp_plain_page_warns_without_income :
  Page.accountWarning
    (Page.mkState None (Some 3000) None None Monthly RRSP)
  = Some (Page.MonthlyOverAnnual RRSP 3000 (3000 * 12) 31560 2630).
Proof. reflexivity. Defined.

(** The grant never exceeds 500, nor 20% of a contribution. *)
Lemma cesg_bounds (annual : Q) :
  AccountPage.cesgOf annual <= 500
  /\ AccountPage.cesgOf annual <= annual * 0.20.
Proof.
  unfold AccountPage.cesgOf, Math_min. split.
  - apply Q.le_min_r.
  - apply Q.le_min_l.
Qed.

(** C6.  With account type RESP the contribution that enters the balance
    calculator and the trajectory generator is the annual contribution plus
    a grant of min(annualContribution * 0.20, 500), as a monthly figure
    ((annual + grant)/12); so for every annualContribution >= 0 the
    effective annual inflow is at most annualContribution * 1.20, and the
    grant is at most 500 however large the contribution. *)
Theorem resp_grant (s : AccountPage.State) :
  AccountPage.accountType s = RESP ->
  let annual := parseField (AccountPage.respAnnualContribution s) in
  let grant := Math_min (annual * 0.20) 500 in
  let initial := parseField (AccountPage.initialInvestment s) in
  let years := parseYears (AccountPage.lengthOfTime s) in
  let rate := parseField (AccountPage.annualReturn s) in
  let F := AccountPage.compoundFrequency s in
  AccountPage.effectiveMonthly s = (annual + grant) / 12
  /\ AccountPage.results s
     = resultsOf initial ((annual + grant) / 12) years rate F
  /\ AccountPage.chartData s
     = chartDataOf initial ((annual + grant) / 12) years rate F
  /\ AccountPage.effectiveMonthly s * 12 == annual + grant
  /\ grant <= 500
  /\ (0 <= annual ->
      annual + grant <= annual * 1.20
      /\ AccountPage.effectiveMonthly s * 12 <= annual * 1.20).
Proof.
  intros Htype annual grant initial years rate F.
  assert (AccountPage.effectiveMonthly s = (annual + grant) / 12) as Heff.
  { unfold AccountPage.effectiveMonthly. now rewrite Htype. }
  destruct (cesg_bounds annual) as [H500 H20].
  change (AccountPage.cesgOf annual) with grant in H500, H20.
  unfold AccountPage.results, AccountPage.chartData. rewrite Heff.
  assert ((annual + grant) / 12 * 12 == annual + grant) as Hyear by field.
  repeat split; try assumption.
  - lra.
  - rewrite Hyear. lra.
Qed.

Lemma resp_grant_witness :
  let s :=
    AccountPage.mkState (Some 1000) None (Some 10%Z) (Some 5) Monthly RESP
      None None None None None (Some 2500) in
  AccountPage.effectiveMonthly s == 250
  /\ AccountPage.effectiveMonthly s * 12 == 3000.
Proof.
  intros s.
  destruct (resp_grant s eq_refl) as (Heff & _ & _ & Hyear & _).
  split.
  - rewrite Heff. reflexivity.
  - rewrite Hyear. reflexivity.
Defined.

(** On a contribution that is not negative, a projected total above the
    lifetime cap already makes the contribution positive. *)
Lemma projected_total_positive (annual : Q) (years : Z) :
  0 <= annual -> 40000 < annual * inject_Z years -> 0 < annual.
Proof.
  intros Hnonneg Hover.
  destruct (Qlt_le_dec 0 annual) as [Hpos | Hle]; [exact Hpos|].
  assert (annual == 0) as Hzero by lra.
  rewrite Hzero in Hover. lra.
Qed.

(** C7, as the code has it.  With account type FHSA the evaluator makes
    three checks in order and returns at the first that holds: the annual
    contribution above 8,000 gives the annual-limit warning; otherwise the
    initial investment above 40,000 gives the lifetime-limit warning;
    otherwise a positive annual contribution whose total over the horizon
    is above 40,000 gives the warning with the year
    floor(40,000 / annualContribution); otherwise there is no warning.  The
    test for a positive contribution is implied by the third check whenever
    the contribution is not negative. *)
Theorem fhsa_advisory (s : AccountPage.State) :
  AccountPage.accountType s = FHSA ->
  let annual := parseField (AccountPage.fhsaAnnualContribution s) in
  let initial := parseField (AccountPage.initialInvestment s) in
  let years := parseYears (AccountPage.lengthOfTime s) in
  let w := AccountPage.accountWarning s in
  (8000 < annual -> w = Some (AccountPage.FhsaOverAnnual annual))
  /\ (annual <= 8000 -> 40000 < initial ->
      w = Some (AccountPage.FhsaInitialOverLifetime initial))
  /\ (annual <= 8000 -> initial <= 40000 ->
      0 < annual -> 40000 < annual * inject_Z years ->
      w = Some (AccountPage.FhsaLifetimeHit (Math_floor (40000 / annual))))
  /\ (annual <= 8000 -> initial <= 40000 ->
      ~ (0 < annual /\ 40000 < annual * inject_Z years) ->
      w = None)
  /\ (0 <= annual -> annual <= 8000 -> initial <= 40000 ->
      40000 < annual * inject_Z years ->
      w = Some (AccountPage.FhsaLifetimeHit (Math_floor (40000 / annual)))).
Proof.
  intros Htype annual initial years w.
  assert ((8000 < annual -> w = Some (AccountPage.FhsaOverAnnual annual))
    /\ (annual <= 8000 -> 40000 < initial ->
        w = Some (AccountPage.FhsaInitialOverLifetime initial))
    /\ (annual <= 8000 -> initial <= 40000 ->
        0 < annual -> 40000 < annual * inject_Z years ->
        w = Some (AccountPage.FhsaLifetimeHit (Math_floor (40000 / annual))))
    /\ (annual <= 8000 -> initial <= 40000 ->
        ~ (0 < annual /\ 40000 < annual * inject_Z years) ->
        w = None)) as (H1 & H2 & H3 & H4).
  { subst w. unfold AccountPage.accountWarning.
    rewrite Htype. fold annual initial years.
    case_test (Qgtb annual 8000); case_test (Qgtb initial 40000);
      case_test (Qgtb annual 0);
      case_test (Qgtb (annual * inject_Z years) 40000); settle. }
  repeat split; try assumption.
  intros Hnonneg Ha Hi Hover. apply H3; try assumption.
  now apply (projected_total_positive annual years).
Qed.

Lemma fhsa_advisory_witness :
  let s :=
    AccountPage.mkState (Some 0) None (Some 6%Z) None Monthly FHSA
      None None None None (Some 8000) None in
  AccountPage.accountWarning s = Some (AccountPage.FhsaLifetimeHit 5).
Proof.
  intros s.
  destruct (fhsa_advisory s eq_refl) as (_ & _ & H3 & _).
  apply H3.
  - discriminate.
  - discriminate.
  - reflexivity.
  - reflexivity.
Defined.

(** C7, as the claim has it, fails: with an annual contribution of -8,000
    and a horizon of -6 years the first two checks do not hold and
    annualContribution * horizonYears = 48,000 is above 40,000, yet no
    warning is produced. *)
Lemma fhsa_unguarded_check_fails :
  let s :=
    AccountPage.mkState (Some 0) None (Some (-6)%Z) None Monthly FHSA
      None None None None (Some (-8000)) None in
  let annual := parseField (AccountPage.fhsaAnnualContribution s) in
  let initial := parseField (AccountPage.initialInvestment s) in
  let years := parseYears (AccountPage.lengthOfTime s) in
  AccountPage.accountType s = FHSA
  /\ ~ 8000 < annual
  /\ ~ 40000 < initial
  /\ 40000 < annual * inject_Z years
  /\ AccountPage.accountWarning s = None.
Proof.
  cbv zeta. repeat split; discriminate.
Defined.

(** * Further properties of the engine *)

(** ** The balance calculator *)

(** X1.  A horizon of zero years returns the initial investment untouched:
    balance and contributed are both P and the interest is 0, whatever the
    monthly contribution, the rate and the frequency. *)
Theorem zero_horizon (P M R : Q) (F : CompoundFrequency) :
  let res := calculateCompoundInterest P M R 0 F in
  totalBalance res == P
  /\ totalContributed res == P
  /\ totalInterest res == 0.
Proof.
  intros res.
  assert (totalBalance res == P) as Hb.
  { subst res. simpl. unfold compoundPrincipalAt, annuityValueAt.
    rewrite Z.mul_0_r. unfold Math_pow. simpl Qpower.
    destruct (Qgtb (R / 100) 0); unfold Qdiv; ring. }
  assert (totalContributed res == P) as Hc.
  { subst res. simpl. ring. }
  repeat split; try assumption.
  change (totalInterest res) with (totalBalance res - totalContributed res).
  rewrite Hb, Hc. ring.
Qed.

Lemma contribution_linear (M1 M2 : Q) (F : CompoundFrequency) :
  getContributionPerPeriod (M1 + M2) F
  == getContributionPerPeriod M1 F + getContributionPerPeriod M2 F.
Proof. destruct F; simpl; field. Qed.

Lemma contribution_scales (c M : Q) (F : CompoundFrequency) :
  getContributionPerPeriod (c * M) F == c * getContributionPerPeriod M F.
Proof. destruct F; simpl; field. Qed.

(** The annuity summand respects equal payments. *)
Lemma annuity_payment_eq (A B r : Q) (n t : Z) :
  A == B -> annuityValueAt A r n t == annuityValueAt B r n t.
Proof.
  intros E. unfold annuityValueAt. destruct (Qgtb r 0); now rewrite E.
Qed.

Lemma annuity_add (A B r : Q) (n t : Z) :
  annuityValueAt (A + B) r n t
  == annuityValueAt A r n t + annuityValueAt B r n t.
Proof.
  unfold annuityValueAt. destruct (Qgtb r 0); ring.
Qed.

Lemma annuity_scale (c A r : Q) (n t : Z) :
  annuityValueAt (c * A) r n t == c * annuityValueAt A r n t.
Proof.
  unfold annuityValueAt. destruct (Qgtb r 0); ring.
Qed.

(** X2.  The projection is linear in the two amounts: the projection of a sum
    of inputs is the sum of the projections, and scaling both amounts by
    [c] scales all three results by [c]; rate, horizon and frequency
    fixed. *)
Theorem projection_linear
  (P1 M1 P2 M2 c R : Q) (T : Z) (F : CompoundFrequency) :
  let proj P M := calculateCompoundInterest P M R T F in
  totalBalance (proj (P1 + P2) (M1 + M2))
  == totalBalance (proj P1 M1) + totalBalance (proj P2 M2)
  /\ totalContributed (proj (P1 + P2) (M1 + M2))
     == totalContributed (proj P1 M1) + totalContributed (proj P2 M2)
  /\ totalInterest (proj (P1 + P2) (M1 + M2))
     == totalInterest (proj P1 M1) + totalInterest (proj P2 M2)
  /\ totalBalance (proj (c * P1) (c * M1)) == c * totalBalance (proj P1 M1)
  /\ totalContributed (proj (c * P1) (c * M1))
     == c * totalContributed (proj P1 M1)
  /\ totalInterest (proj (c * P1) (c * M1))
     == c * totalInterest (proj P1 M1).
Proof.
  intros proj.
  assert (totalBalance (proj (P1 + P2) (M1 + M2))
          == totalBalance (proj P1 M1) + totalBalance (proj P2 M2)) as Hadd.
  { subst proj. simpl.
    rewrite (annuity_payment_eq _ _ _ _ _ (contribution_linear M1 M2 F)).
    rewrite annuity_add. unfold compoundPrincipalAt. ring. }
  assert (totalBalance (proj (c * P1) (c * M1))
          == c * totalBalance (proj P1 M1)) as Hscale.
  { subst proj. simpl.
    rewrite (annuity_payment_eq _ _ _ _ _ (contribution_scales c M1 F)).
    rewrite annuity_scale. unfold compoundPrincipalAt. ring. }
  assert (forall P M, totalInterest (proj P M)
                      = totalBalance (proj P M) - totalContributed (proj P M))
    as Hint by reflexivity.
  assert (totalContributed (proj (P1 + P2) (M1 + M2))
          == totalContributed (proj P1 M1) + totalContributed (proj P2 M2))
    as Hcadd by (subst proj; simpl; ring).
  assert (totalContributed (proj (c * P1) (c * M1))
          == c * totalContributed (proj P1 M1))
    as Hcscale by (subst proj; simpl; ring).
  repeat split; try assumption.
  - rewrite !Hint, Hadd, Hcadd. ring.
  - rewrite !Hint, Hscale, Hcscale. ring.
Qed.

(** The growth factor of one more year. *)
Lemma growth_next_year (r : Q) (n t : Z) :
  0 <= r -> (0 < n)%Z ->
  Math_pow (1 + r / inject_Z n) (n * (t + 1))
  == Math_pow (1 + r / inject_Z n) (n * t)
     * Math_pow (1 + r / inject_Z n) n.
Proof.
  intros Hr Hn. unfold Math_pow.
  pose proof (base_ge_1 r n Hr Hn) as Hb. cbv zeta in Hb.
  replace (n * (t + 1))%Z with (n * t + n)%Z by ring.
  apply Qpower_plus. lra.
Qed.

(** X3.  Year on year: for a rate that is not negative, the balance after
    T + 1 years is the balance after T years grown by one year's factor
    (1 + r/n)^n, plus what one year of contributions alone comes to. *)
Theorem yearly_recurrence (P M R : Q) (T : Z) (F : CompoundFrequency) :
  0 <= R ->
  let n := getCompoundFrequencyPerYear F in
  let yearFactor := Math_pow (1 + R / 100 / inject_Z n) n in
  totalBalance (calculateCompoundInterest P M R (T + 1) F)
  == totalBalance (calculateCompoundInterest P M R T F) * yearFactor
     + totalBalance (calculateCompoundInterest 0 M R 1 F).
Proof.
  intros HR n yearFactor. simpl. fold n.
  pose proof (rate_fraction_nonneg R HR) as Hr.
  pose proof (periods_positive F) as Hn. fold n in Hn.
  pose proof (n_pos_Q n Hn) as HnQ.
  pose proof (growth_next_year (R / 100) n T Hr Hn) as Hnext.
  fold yearFactor in Hnext.
  unfold compoundPrincipalAt, annuityValueAt.
  rewrite Z.mul_1_r. fold yearFactor.
  set (PMT := getContributionPerPeriod M F).
  destruct (Qgtb (R / 100) 0) eqn:E; reflect_tests.
  - assert (0 < R / 100 / inject_Z n) as Hx
        by (apply Qlt_shift_div_l; lra).
    rewrite Hnext.
    set (x := R / 100 / inject_Z n) in *.
    set (g := Math_pow (1 + x) (n * T)) in *.
    field. lra.
  - rewrite inject_Z_plus.
    assert (R / 100 == 0) as Hzero by lra.
    assert (yearFactor == 1) as Hone.
    { unfold yearFactor, Math_pow. rewrite Hzero.
      assert (1 + 0 / inject_Z n == 1) as E1 by (field; lra).
      rewrite E1. apply Qpower_1. }
    rewrite Hnext, Hone. change (inject_Z 1) with 1. ring.
Qed.

Lemma yearly_recurrence_witness :
  totalBalance (calculateCompoundInterest 1000 100 6 3 Annually)
  == totalBalance (calculateCompoundInterest 1000 100 6 2 Annually)
     * (106 # 100)
     + 1200.
Proof.
  pose proof (yearly_recurrence 1000 100 6 2 Annually) as H.
  cbv zeta in H. rewrite H by discriminate. reflexivity.
Defined.

(** ** Waiting at rate zero *)





(** ** The whole trajectory *)

(** X7.  Every point of the trajectory is the projection for its own year:
    the point at index t, for t from 0 to T, has year t and the
    totalBalance and totalContributed that [calculateCompoundInterest]
    returns for a horizon of t years; there is no point after index T. *)
Theorem trajectory_point_is_projection
  (P M R : Q) (T t : Z) (F : CompoundFrequency) :
  (0 <= t <= T)%Z ->
  let data := calculateYearlyData P M R T F in
  let res := calculateCompoundInterest P M R t F in
  (exists p,
      nth_error data (Z.to_nat t) = Some p
      /\ YearlyPoint.year p = t
      /\ YearlyPoint.totalBalance p = totalBalance res
      /\ YearlyPoint.totalContributed p = totalContributed res
      /\ YearlyPoint.showLabel p = labelYears_has T t)
  /\ nth_error data (Z.to_nat (T + 1)) = None.
Proof.
  intros Ht data res. split.
  - exists (yearlyPoint P M R T F t). split.
    + apply calculateYearlyData_nth. exact Ht.
    + repeat split.
  - apply nth_error_None. subst data.
    rewrite calculateYearlyData_length. lia.
Qed.

Lemma trajectory_point_is_projection_witness :
  exists p,
    nth_error (calculateYearlyData 1000 100 6 4 Quarterly) 2 = Some p
    /\ YearlyPoint.totalBalance p
       = totalBalance (calculateCompoundInterest 1000 100 6 2 Quarterly).
Proof.
  destruct (trajectory_point_is_projection 1000 100 6 4 2 Quarterly)
    as ((p & Hnth & _ & Hbal & _) & _).
  - lia.
  - exists p. split; [exact Hnth | exact Hbal].
Defined.

Lemma contributed_monotone (P M R : Q) (t1 t2 : Z) (F : CompoundFrequency) :
  0 <= M -> (t1 <= t2)%Z ->
  totalContributed (calculateCompoundInterest P M R t1 F)
  <= totalContributed (calculateCompoundInterest P M R t2 F).
Proof.
  intros HM Ht. simpl.
  assert (inject_Z t1 <= inject_Z t2) as HtQ by (now rewrite <- Zle_Qle).
  assert (0 <= M * 12) as H12 by lra.
  pose proof (Qmult_le_nonneg_l _ _ _ HtQ H12). lra.
Qed.

(** A list of images of consecutive numbers is sorted for a relation that
    holds between the images of any two numbers in increasing order. *)
Lemma sorted_map_seq {A : Type} (rel : A -> A -> Prop) (f : nat -> A) :
  forall (len start : nat),
    (forall i j : nat, (start <= i < j)%nat -> (j < start + len)%nat ->
                       rel (f i) (f j)) ->
    StronglySorted rel (map f (seq start len)).
Proof.
  induction len as [|len IH]; intros start Hrel; simpl.
  - constructor.
  - constructor.
    + apply IH. intros i j Hij Hj. apply Hrel; lia.
    + apply Forall_forall. intros y Hy.
      apply in_map_iff in Hy. destruct Hy as (j & <- & Hj).
      apply in_seq in Hj. apply Hrel; lia.
Qed.

(** X8.  For amounts and a rate that are not negative the chart never
    falls: from one point of the trajectory to any later one the year
    increases and neither the balance nor the contributed amount
    decreases, for every horizon, whole or not. *)
Theorem trajectory_never_falls
  (P M R T : Q) (F : CompoundFrequency) :
  0 <= P -> 0 <= M -> 0 <= R ->
  StronglySorted
    (fun a b =>
       (YearlyPoint.year a < YearlyPoint.year b)%Z
       /\ YearlyPoint.totalBalance a <= YearlyPoint.totalBalance b
       /\ YearlyPoint.totalContributed a <= YearlyPoint.totalContributed b)
    (Num.calculateYearlyData P M R T F).
Proof.
  intros HP HM HR.
  rewrite num_calculateYearlyData_points.
  apply sorted_map_seq. intros i j Hij _. simpl. split; [lia|]. split.
  - apply (balance_monotone P M R F); try assumption. lia.
  - apply (contributed_monotone P M R _ _ F); [assumption | lia].
Qed.

Lemma trajectory_never_falls_witness :
  StronglySorted
    (fun a b =>
       (YearlyPoint.year a < YearlyPoint.year b)%Z
       /\ YearlyPoint.totalBalance a <= YearlyPoint.totalBalance b
       /\ YearlyPoint.totalContributed a <= YearlyPoint.totalContributed b)
    (Num.calculateYearlyData 1000 100 6 (7 # 2) Monthly).
Proof.
  apply (trajectory_never_falls 1000 100 6 (7 # 2) Monthly); discriminate.
Defined.

(** ** The labelled points of the chart *)

Lemma round_fraction_bounds (T : Z) (c : Q) :
  (0 <= T)%Z -> 0 <= c <= 1 ->
  (0 <= Math_round (inject_Z T * c) <= T)%Z.
Proof.
  intros HT [Hc0 Hc1]. unfold Math_round.
  assert (0 <= inject_Z T) as HTQ.
  { change 0 with (inject_Z 0). now rewrite <- Zle_Qle. }
  set (x := inject_Z T * c + (1 # 2)).
  assert (0 <= x) as Hx0 by (unfold x; nra).
  assert (x < inject_Z (T + 1)) as Hx1.
  { rewrite inject_Z_plus. change (inject_Z 1) with 1. unfold x. nra. }
  split.
  - change 0%Z with (Qfloor 0). now apply Qfloor_resp_le.
  - pose proof (Qfloor_le x) as Hfl.
    assert (inject_Z (Qfloor x) < inject_Z (T + 1)) as Hlt by lra.
    rewrite <- Zlt_Qlt in Hlt. lia.
Qed.

Lemma round_fraction_monotone (T : Z) (c d : Q) :
  (0 <= T)%Z -> c <= d ->
  (Math_round (inject_Z T * c) <= Math_round (inject_Z T * d))%Z.
Proof.
  intros HT Hcd. unfold Math_round. apply Qfloor_resp_le.
  assert (0 <= inject_Z T) as HTQ.
  { change 0 with (inject_Z 0). now rewrite <- Zle_Qle. }
  pose proof (Qmult_le_nonneg_l _ _ _ Hcd HTQ). lra.
Qed.

Lemma round_whole_years (T : Q) (k : Z) (c : Q) :
  T == inject_Z k -> Math_round (T * c) = Math_round (inject_Z k * c).
Proof.
  intros HT. unfold Math_round. apply Qfloor_comp. now rewrite HT.
Qed.

Lemma filter_or_length {A : Type} (p q : A -> bool) (l : list A) :
  (List.length (filter (fun x => p x || q x) l)
   <= List.length (filter p l) + List.length (filter q l))%nat.
Proof.
  induction l as [|x l IH]; simpl; [lia|].
  destruct (p x), (q x); simpl; lia.
Qed.

Lemma filter_one_value (a : Q) (dom : list nat) :
  NoDup dom ->
  (List.length
     (filter (fun i => Qeq_bool (inject_Z (Z.of_nat i)) a) dom) <= 1)%nat.
Proof.
  intros Hnodup.
  set (same := fun i : nat => Qeq_bool (inject_Z (Z.of_nat i)) a).
  pose proof (NoDup_filter same Hnodup) as Hnd.
  assert (forall i, In i (filter same dom) -> inject_Z (Z.of_nat i) == a)
    as Hall.
  { intros i Hi. apply filter_In in Hi. now apply Qeq_bool_iff. }
  destruct (filter same dom) as [|x [|y rest]]; simpl; try lia.
  exfalso. inversion Hnd as [|? ? Hnotin _]; subst. apply Hnotin.
  left. apply Nat2Z.inj. apply inject_Z_injective.
  rewrite (Hall x) by (left; reflexivity).
  rewrite (Hall y) by (right; left; reflexivity). reflexivity.
Qed.

(** Among distinct indices, no more are found in a list of years than the
    list has entries. *)
Lemma filter_members_bound (L : list Q) (dom : list nat) :
  NoDup dom ->
  (List.length
     (filter (fun i => existsb (Qeq_bool (inject_Z (Z.of_nat i))) L) dom)
   <= List.length L)%nat.
Proof.
  intros Hnodup. induction L as [|a L IH]; simpl.
  - induction dom as [|x dom IHdom]; simpl; [lia|].
    apply IHdom. now inversion Hnodup.
  - pose proof (filter_or_length
                  (fun i => Qeq_bool (inject_Z (Z.of_nat i)) a)
                  (fun i => existsb (Qeq_bool (inject_Z (Z.of_nat i))) L)
                  dom) as Hor.
    pose proof (filter_one_value a dom Hnodup). lia.
Qed.

(** X9.  For a horizon T >= 0 a point of the trajectory is labelled
    exactly when its year is one of the label years; the first point is
    always labelled and at most five points are.  When T is a whole number
    of years the label years run in order from 0 to T, all on the chart,
    and the last point is labelled too. *)
Theorem chart_labels (P M R T : Q) (F : CompoundFrequency) :
  0 <= T ->
  let data := Num.calculateYearlyData P M R T F in
  (forall (index : nat) (p : YearlyPoint.t),
      nth_error data index = Some p ->
      (YearlyPoint.showLabel p = true
       <-> exists y, In y (Num.labelYears T)
                     /\ inject_Z (Z.of_nat index) == y))
  /\ (exists first,
         nth_error data 0 = Some first
         /\ YearlyPoint.showLabel first = true)
  /\ (List.length (filter YearlyPoint.showLabel data) <= 5)%nat
  /\ (forall k : Z,
         T == inject_Z k ->
         StronglySorted Qle (Num.labelYears T)
         /\ Forall (fun y => 0 <= y /\ y <= T) (Num.labelYears T)
         /\ exists last,
              nth_error data (Z.to_nat k) = Some last
              /\ YearlyPoint.showLabel last = true).
Proof.
  intros HT data.
  assert (0 <= Qfloor T)%Z as Hfloor.
  { change 0%Z with (Qfloor 0). now apply Qfloor_resp_le. }
  split; [|split; [|split]].
  - intros index p Hp.
    assert (index < Z.to_nat (Qfloor T + 1))%nat as Hlt.
    { rewrite <- (num_calculateYearlyData_length P M R T F).
      apply nth_error_Some. subst data. congruence. }
    subst data. rewrite <- (Nat2Z.id index) in Hp.
    rewrite num_calculateYearlyData_nth in Hp by lia.
    injection Hp as <-. simpl. unfold Num.labelYears_has.
    rewrite existsb_exists. split.
    + intros (y & Hy & Heq). exists y. split; [exact Hy|].
      now apply Qeq_bool_iff.
    + intros (y & Hy & Heq). exists y. split; [exact Hy|].
      now apply Qeq_bool_iff.
  - exists (Num.yearlyPoint P M R T F 0). split.
    + apply (num_calculateYearlyData_nth P M R T F 0). lia.
    + reflexivity.
  - subst data. rewrite num_calculateYearlyData_points, filter_map_swap.
    rewrite length_map.
    change 5%nat with (List.length (Num.labelYears T)).
    apply (filter_members_bound (Num.labelYears T)). apply seq_NoDup.
  - intros k Hk.
    assert (Qfloor T = k) as Hfk.
    { rewrite (Qfloor_comp _ _ Hk). apply Qfloor_Z. }
    assert (0 <= k)%Z as Hk0 by lia.
    pose proof (round_fraction_bounds k 0.25 Hk0 ltac:(split; discriminate))
      as B1.
    pose proof (round_fraction_bounds k 0.5 Hk0 ltac:(split; discriminate))
      as B2.
    pose proof (round_fraction_bounds k 0.75 Hk0 ltac:(split; discriminate))
      as B3.
    pose proof (round_fraction_monotone k 0.25 0.5 Hk0 ltac:(discriminate))
      as M12.
    pose proof (round_fraction_monotone k 0.5 0.75 Hk0 ltac:(discriminate))
      as M23.
    rewrite <- (round_whole_years T k 0.25 Hk) in B1, M12.
    rewrite <- (round_whole_years T k 0.5 Hk) in B2, M12, M23.
    rewrite <- (round_whole_years T k 0.75 Hk) in B3, M23.
    set (q1 := Math_round (T * 0.25)) in *.
    set (q2 := Math_round (T * 0.5)) in *.
    set (q3 := Math_round (T * 0.75)) in *.
    assert (forall a b : Z, (a <= b)%Z -> inject_Z a <= inject_Z b) as Hinj
        by (intros a b Hab; now rewrite <- Zle_Qle).
    pose proof (Hinj 0%Z q1 ltac:(lia)) as I1.
    pose proof (Hinj q1 q2 ltac:(lia)) as I2.
    pose proof (Hinj q2 q3 ltac:(lia)) as I3.
    pose proof (Hinj q3 k ltac:(lia)) as I4.
    change (inject_Z 0) with 0 in I1. rewrite <- Hk in I4.
    unfold Num.labelYears. fold q1 q2 q3.
    split; [|split].
    + repeat constructor; lra.
    + repeat constructor; lra.
    + exists (Num.yearlyPoint P M R T F k). split.
      * apply num_calculateYearlyData_nth. lia.
      * simpl. unfold Num.labelYears_has. apply existsb_exists.
        exists T. split.
        -- unfold Num.labelYears. simpl. tauto.
        -- apply Qeq_bool_iff. now rewrite Hk.
Qed.

Lemma chart_labels_witness :
  let data := Num.calculateYearlyData 1000 100 6 10 Monthly in
  map YearlyPoint.year (filter YearlyPoint.showLabel data)
  = [0; 3; 5; 8; 10]%Z
  /\ (List.length (filter YearlyPoint.showLabel data) <= 5)%nat.
Proof.
  intros data. split; [reflexivity|].
  destruct (chart_labels 1000 100 6 10 Monthly) as (_ & _ & Hcount & _);
    [discriminate | exact Hcount].
Defined.

(** * Further properties of the account rules *)

(** Close a goal about the advisories after every test is decided. *)
Ltac settle_advisories :=
  simpl;
  intuition (try congruence; try discriminate; try (exfalso; lra); try lra).

(** X10.  A warning and a confirmation are shown together in one situation
    only: the account is FHSA or RESP, the annual contribution is positive
    and within the limits over the horizon, and the initial investment
    alone is above the lifetime cap.  For TFSA, RRSP, a non-registered
    account and no account they are never shown together. *)
Theorem both_advisories_only_over_initial (s : AccountPage.State) :
  let initial := parseField (AccountPage.initialInvestment s) in
  let years := inject_Z (parseYears (AccountPage.lengthOfTime s)) in
  let fhsa := parseField (AccountPage.fhsaAnnualContribution s) in
  let resp := parseField (AccountPage.respAnnualContribution s) in
  (AccountPage.accountWarning s <> None
   /\ AccountPage.accountConfirmation s <> None)
  <-> (AccountPage.accountType s = FHSA
       /\ 0 < fhsa /\ fhsa <= 8000 /\ fhsa * years <= 40000
       /\ 40000 < initial)
      \/ (AccountPage.accountType s = RESP
          /\ 0 < resp /\ resp * years <= 50000 /\ 50000 < initial).
Proof.
  intros initial years fhsa resp.
  unfold AccountPage.accountWarning, AccountPage.accountConfirmation.
  destruct (AccountPage.accountType s) eqn:Htype.
  - fold (parseField (AccountPage.tfsaAnnualContribution s)).
    set (annual := parseField (AccountPage.tfsaAnnualContribution s)).
    case_test (Qgtb annual 7000); case_test (Qgtb annual 0);
      case_test (Qle_bool annual 7000); settle_advisories.
  - set (annual := parseField (AccountPage.rrspAnnualContribution s)).
    set (income := parseField (AccountPage.rrspAnnualIncome s)).
    set (cap := Math_min (income * 0.18) 31560).
    case_test (Qgtb annual 0); case_test (Qgtb income 0);
      case_test (Qgtb annual cap); case_test (Qle_bool annual cap);
      settle_advisories.
  - fold initial fhsa. fold years.
    case_test (Qgtb fhsa 8000); case_test (Qgtb initial 40000);
      case_test (Qgtb fhsa 0); case_test (Qgtb (fhsa * years) 40000);
      case_test (Qle_bool fhsa 8000);
      case_test (Qle_bool (fhsa * years) 40000); settle_advisories.
  - fold initial resp. fold years.
    case_test (Qgtb resp 0); case_test (Qgtb (resp * years) 50000);
      case_test (Qgtb initial 50000);
      case_test (Qle_bool (resp * years) 50000); settle_advisories.
  - settle_advisories.
  - settle_advisories.
Qed.

(** X11.  With a positive contribution entered (and a positive income for RRSP,
    an initial investment within the lifetime cap for FHSA and RESP) the
    page shows exactly one advisory: the confirmation when there is no
    warning, and no confirmation when there is one. *)
Theorem exactly_one_advisory (s : AccountPage.State) :
  let initial := parseField (AccountPage.initialInvestment s) in
  match AccountPage.accountType s with
  | TFSA => 0 < parseField (AccountPage.tfsaAnnualContribution s)
  | RRSP =>
      0 < parseField (AccountPage.rrspAnnualContribution s)
      /\ 0 < parseField (AccountPage.rrspAnnualIncome s)
  | FHSA =>
      0 < parseField (AccountPage.fhsaAnnualContribution s)
      /\ initial <= 40000
  | RESP =>
      0 < parseField (AccountPage.respAnnualContribution s)
      /\ initial <= 50000
  | General | Unselected => False
  end ->
  (AccountPage.accountWarning s = None
   <-> AccountPage.accountConfirmation s <> None).
Proof.
  intros initial.
  unfold AccountPage.accountWarning, AccountPage.accountConfirmation.
  destruct (AccountPage.accountType s) eqn:Htype; intros Hpre.
  - set (annual := parseField (AccountPage.tfsaAnnualContribution s)) in *.
    case_test (Qgtb annual 7000); case_test (Qgtb annual 0);
      case_test (Qle_bool annual 7000); settle_advisories.
  - set (annual := parseField (AccountPage.rrspAnnualContribution s)) in *.
    set (income := parseField (AccountPage.rrspAnnualIncome s)) in *.
    set (cap := Math_min (income * 0.18) 31560).
    case_test (Qgtb annual 0); case_test (Qgtb income 0);
      case_test (Qgtb annual cap); case_test (Qle_bool annual cap);
      settle_advisories.
  - fold initial.
    set (fhsa := parseField (AccountPage.fhsaAnnualContribution s)) in *.
    set (years := inject_Z (parseYears (AccountPage.lengthOfTime s))).
    case_test (Qgtb fhsa 8000); case_test (Qgtb initial 40000);
      case_test (Qgtb fhsa 0); case_test (Qgtb (fhsa * years) 40000);
      case_test (Qle_bool fhsa 8000);
      case_test (Qle_bool (fhsa * years) 40000); settle_advisories.
  - fold initial.
    set (resp := parseField (AccountPage.respAnnualContribution s)) in *.
    set (years := inject_Z (parseYears (AccountPage.lengthOfTime s))).
    case_test (Qgtb resp 0); case_test (Qgtb (resp * years) 50000);
      case_test (Qgtb initial 50000);
      case_test (Qle_bool (resp * years) 50000); settle_advisories.
  - contradiction.
  - contradiction.
Qed.

Lemma exactly_one_advisory_witness :
  let s :=
    AccountPage.mkState (Some 10000) None (Some 10%Z) (Some 5) Monthly FHSA
      None None None None (Some 3000) None in
  AccountPage.accountWarning s = None
  /\ AccountPage.accountConfirmation s <> None.
Proof.
  intros s. split; [reflexivity|].
  apply (exactly_one_advisory s); [|reflexivity].
  split; [reflexivity | discriminate].
Defined.

(** X12.  With account type RESP the projected total of the contributions is
    checked first and the initial investment second, each on its own
    against 50,000: a positive contribution whose total over the horizon
    is above 50,000 gives the lifetime warning with that total; otherwise
    an initial investment above 50,000 gives the initial-investment
    warning; otherwise there is none.  The confirmation is shown exactly
    for a positive contribution whose total is at most 50,000.  The two
    amounts are never added, and the grant is not counted. *)
Theorem resp_advisory (s : AccountPage.State) :
  AccountPage.accountType s = RESP ->
  let initial := parseField (AccountPage.initialInvestment s) in
  let annual := parseField (AccountPage.respAnnualContribution s) in
  let total :=
    annual * inject_Z (parseYears (AccountPage.lengthOfTime s)) in
  let w := AccountPage.accountWarning s in
  let c := AccountPage.accountConfirmation s in
  (0 < annual -> 50000 < total ->
   w = Some (AccountPage.RespLifetimeExceeded total))
  /\ (~ (0 < annual /\ 50000 < total) -> 50000 < initial ->
      w = Some (AccountPage.RespInitialOverLifetime initial))
  /\ (~ (0 < annual /\ 50000 < total) -> initial <= 50000 -> w = None)
  /\ (c = Some (AccountPage.RespWithin annual)
      <-> 0 < annual /\ total <= 50000)
  /\ (c = None <-> ~ (0 < annual /\ total <= 50000))
  /\ (0 < annual -> total <= 50000 -> initial <= 50000 ->
      w = None /\ c = Some (AccountPage.RespWithin annual)).
Proof.
  intros Htype initial annual total w c. subst w c.
  unfold AccountPage.accountWarning, AccountPage.accountConfirmation.
  rewrite Htype. fold initial annual. fold total.
  case_test (Qgtb annual 0); case_test (Qgtb total 50000);
    case_test (Qgtb initial 50000); case_test (Qle_bool total 50000);
    settle_advisories.
Qed.

Lemma resp_advisory_witness :
  let s :=
    AccountPage.mkState (Some 30000) None (Some 10%Z) (Some 5) Monthly RESP
      None None None None None (Some 3000) in
  AccountPage.accountWarning s = None
  /\ AccountPage.accountConfirmation s
     = Some (AccountPage.RespWithin 3000).
Proof.
  intros s.
  destruct (resp_advisory s eq_refl) as (_ & _ & _ & _ & _ & H).
  apply H; [reflexivity | discriminate | discriminate].
Defined.

(** X13.  The year named by the FHSA lifetime warning: whenever the warning
    "You'll hit the $40,000 FHSA lifetime limit in k years" is produced,
    k is at least 5 and less than the horizon, k years of contributions
    still fit under 40,000 and k + 1 years do not. *)
Theorem fhsa_years_until_limit (s : AccountPage.State) (k : Z) :
  AccountPage.accountType s = FHSA ->
  AccountPage.accountWarning s = Some (AccountPage.FhsaLifetimeHit k) ->
  let annual := parseField (AccountPage.fhsaAnnualContribution s) in
  let years := parseYears (AccountPage.lengthOfTime s) in
  (5 <= k < years)%Z
  /\ inject_Z k * annual <= 40000
  /\ 40000 < inject_Z (k + 1) * annual.
Proof.
  intros Htype Hw annual years.
  unfold AccountPage.accountWarning in Hw. rewrite Htype in Hw.
  fold annual years in Hw.
  set (initial := parseField (AccountPage.initialInvestment s)) in *.
  case_test (Qgtb annual 8000); [discriminate Hw|].
  case_test (Qgtb initial 40000); [discriminate Hw|].
  case_test (Qgtb annual 0); [|discriminate Hw].
  case_test (Qgtb (annual * inject_Z years) 40000); [|discriminate Hw].
  cbn [andb] in Hw.
  assert (Math_floor (40000 / annual) = k) as Hk by congruence.
  unfold Math_floor in Hk. clear Hw.
  set (q := 40000 / annual) in *.
  pose proof (Qfloor_le q) as Hlow. pose proof (Qlt_floor q) as Hhigh.
  rewrite Hk in Hlow, Hhigh.
  assert (q * annual == 40000) as Hq by (unfold q; field; lra).
  assert (5 <= q) as H5 by (apply Qle_shift_div_l; lra).
  assert (q < inject_Z years) as Hy by (apply Qlt_shift_div_r; lra).
  split; [split|split].
  - rewrite <- Hk. change 5%Z with (Qfloor 5). now apply Qfloor_resp_le.
  - assert (inject_Z k < inject_Z years) as Hlt by lra.
    now rewrite <- Zlt_Qlt in Hlt.
  - rewrite <- Hq. apply Qmult_le_compat_r; lra.
  - rewrite <- Hq. apply Qmult_lt_compat_r; lra.
Qed.

Lemma fhsa_years_until_limit_witness :
  let s :=
    AccountPage.mkState (Some 0) None (Some 9%Z) None Monthly FHSA
      None None None None (Some 6000) None in
  AccountPage.accountWarning s = Some (AccountPage.FhsaLifetimeHit 6)
  /\ inject_Z 6 * 6000 <= 40000 /\ 40000 < inject_Z (6 + 1) * 6000.
Proof.
  intros s. split; [reflexivity|].
  apply (fhsa_years_until_limit s 6 eq_refl eq_refl).
Defined.

(** X14.  The grant follows the rule written beside it in the source, 20% on
    the first 2,500 of the year: min(annual * 0.20, 500) is
    0.20 * min(annual, 2,500) for every annual contribution; it is
    annual * 0.20 up to 2,500, and 500 from 2,500 on. *)
Theorem cesg_on_first_2500 (annual : Q) :
  AccountPage.cesgOf annual == 0.20 * Math_min annual 2500
  /\ (annual <= 2500 -> AccountPage.cesgOf annual == annual * 0.20)
  /\ (2500 <= annual -> AccountPage.cesgOf annual == 500).
Proof.
  unfold AccountPage.cesgOf, Math_min.
  destruct (Qlt_le_dec annual 2500) as [Hlt | Hge].
  - assert (annual * 0.20 <= 500) as H by lra.
    rewrite (Q.min_l _ _ H), (Q.min_l annual 2500) by lra.
    repeat split; intros; lra.
  - assert (500 <= annual * 0.20) as H by lra.
    rewrite (Q.min_r _ _ H), (Q.min_r annual 2500) by lra.
    repeat split; intros; lra.
Qed.

(** X15.  The contributed figure of the projection counts one year of the
    account-specific annual contribution per year of the horizon and, for
    RESP, the grant with it: whenever a result is produced,
    totalContributed = initial + yearly * years, where yearly is the
    annual contribution of the selected account (plus the grant for RESP),
    or twelve monthly contributions when no registered account is
    selected. *)
Theorem contributed_counts_grant (s : AccountPage.State) (res : Projection) :
  AccountPage.results s = Some res ->
  let initial := parseField (AccountPage.initialInvestment s) in
  let years := inject_Z (parseYears (AccountPage.lengthOfTime s)) in
  let yearly :=
    match AccountPage.accountType s with
    | TFSA => parseField (AccountPage.tfsaAnnualContribution s)
    | RRSP => parseField (AccountPage.rrspAnnualContribution s)
    | FHSA => parseField (AccountPage.fhsaAnnualContribution s)
    | RESP =>
        parseField (AccountPage.respAnnualContribution s)
        + AccountPage.cesgOf (parseField (AccountPage.respAnnualContribution s))
    | General | Unselected =>
        parseField (AccountPage.monthlyContribution s) * 12
    end in
  totalContributed res == initial + yearly * years.
Proof.
  intros Hres initial years yearly.
  unfold AccountPage.results, resultsOf in Hres.
  destruct (isValidInputs _ _ _ _); [|discriminate Hres].
  simpl in Hres. injection Hres as <-. simpl.
  fold initial. fold years. subst yearly.
  unfold AccountPage.effectiveMonthly.
  destruct (AccountPage.accountType s); field.
Qed.

Lemma contributed_counts_grant_witness :
  let s :=
    AccountPage.mkState (Some 1000) None (Some 10%Z) (Some 5) Monthly RESP
      None None None None None (Some 2500) in
  exists res,
    AccountPage.results s = Some res /\ totalContributed res == 31000.
Proof.
  intros s. eexists. split; [reflexivity|].
  rewrite (contributed_counts_grant s _ eq_refl). reflexivity.
Defined.

(** X16.  Which contribution field feeds the engine.  With a non-registered
    account or none selected, the page with account fields computes what
    the plain page computes from the same six fields, and shows no
    advisory.  With TFSA, RRSP, FHSA or RESP selected the monthly
    contribution field, which is then not on the form, has no effect on
    any output. *)
Theorem contribution_field_in_use
  (s : AccountPage.State) (v : option Q) :
  let plain :=
    Page.mkState (AccountPage.initialInvestment s)
      (AccountPage.monthlyContribution s) (AccountPage.lengthOfTime s)
      (AccountPage.annualReturn s) (AccountPage.compoundFrequency s)
      (AccountPage.accountType s) in
  let other :=
    AccountPage.mkState (AccountPage.initialInvestment s) v
      (AccountPage.lengthOfTime s) (AccountPage.annualReturn s)
      (AccountPage.compoundFrequency s) (AccountPage.accountType s)
      (AccountPage.tfsaAnnualContribution s)
      (AccountPage.tfsaContributionYears s)
      (AccountPage.rrspAnnualIncome s)
      (AccountPage.rrspAnnualContribution s)
      (AccountPage.fhsaAnnualContribution s)
      (AccountPage.respAnnualContribution s) in
  (AccountPage.accountType s = General
   \/ AccountPage.accountType s = Unselected ->
   AccountPage.results s = Page.results plain
   /\ AccountPage.chartData s = Page.chartData plain
   /\ AccountPage.comparisonScenarios s = Page.comparisonScenarios plain
   /\ AccountPage.accountWarning s = None
   /\ AccountPage.accountConfirmation s = None
   /\ Page.accountWarning plain = None)
  /\ (AccountPage.accountType s <> General ->
      AccountPage.accountType s <> Unselected ->
      AccountPage.results other = AccountPage.results s
      /\ AccountPage.chartData other = AccountPage.chartData s
      /\ AccountPage.comparisonScenarios other
         = AccountPage.comparisonScenarios s
      /\ AccountPage.accountWarning other = AccountPage.accountWarning s
      /\ AccountPage.accountConfirmation other
         = AccountPage.accountConfirmation s).
Proof.
  intros plain other. split.
  - intros Htype.
    assert (AccountPage.effectiveMonthly s
            = parseField (AccountPage.monthlyContribution s)) as Heff.
    { unfold AccountPage.effectiveMonthly.
      destruct Htype as [-> | ->]; reflexivity. }
    unfold AccountPage.results, AccountPage.chartData,
      AccountPage.comparisonScenarios, AccountPage.accountWarning,
      AccountPage.accountConfirmation, Page.accountWarning.
    rewrite Heff. subst plain. simpl.
    destruct Htype as [-> | ->]; repeat split.
  - intros Hg Hu.
    assert (AccountPage.effectiveMonthly other
            = AccountPage.effectiveMonthly s) as Heff.
    { unfold AccountPage.effectiveMonthly. subst other. simpl.
      destruct (AccountPage.accountType s); try reflexivity;
        contradiction. }
    unfold AccountPage.results, AccountPage.chartData,
      AccountPage.comparisonScenarios.
    rewrite Heff. repeat split.
Qed.

(** X17.  On the plain page the suggested monthly contribution is safe: after a
    warning that twelve monthly contributions exceed the annual limit,
    entering the suggested maxMonthly as the monthly contribution leaves
    no such warning.  For TFSA and RRSP no warning is left at all; for
    FHSA only the warning about the initial investment can remain. *)
Theorem suggested_monthly_clears_warning
  (s : Page.State) (a : AccountType)
  (monthly annual limit : Q) (maxMonthly : Z) :
  let s' := Page_setMonthlyContribution s (Some (inject_Z maxMonthly)) in
  (Page.accountWarning s
   = Some (Page.MonthlyOverAnnual a monthly annual limit maxMonthly) ->
   Page.accountWarning s' = None)
  /\ (Page.accountWarning s
      = Some (Page.FhsaMonthlyOverAnnual monthly annual maxMonthly) ->
      Page.accountWarning s'
      = if Qgtb (parseField (Page.initialInvestment s)) 40000
        then Some (Page.FhsaInitialOverLifetime
                     (parseField (Page.initialInvestment s)))
        else None).
Proof.
  intros s'. subst s'.
  unfold Page.accountWarning, Page_setMonthlyContribution. simpl.
  set (m := parseField (Page.monthlyContribution s)).
  set (initial := parseField (Page.initialInvestment s)).
  destruct (Page.accountType s); simpl; split; intros Hw;
    try discriminate Hw;
    repeat match type of Hw with
      | context [if ?b then _ else _] =>
          destruct b; try discriminate Hw
      end;
    inversion Hw; subst maxMonthly; reflexivity.
Qed.

Lemma suggested_monthly_clears_warning_witness :
  let s := Page.mkState (Some 0) (Some 1000) None None Monthly TFSA in
  Page.accountWarning s
  = Some (Page.MonthlyOverAnnual TFSA 1000 (1000 * 12) 7000 583)
  /\ Page.accountWarning (Page_setMonthlyContribution s (Some 583)) = None.
Proof.
  intros s. split; [reflexivity|].
  destruct (suggested_monthly_clears_warning s TFSA 1000 (1000 * 12) 7000 583)
    as (H & _).
  apply H. reflexivity.
Defined.

Lemma cesg_on_first_2500_witness :
  AccountPage.cesgOf 2500 == 500 /\ AccountPage.cesgOf 1000 == 200.
Proof.
  destruct (cesg_on_first_2500 2500) as (_ & _ & Hhigh).
  destruct (cesg_on_first_2500 1000) as (_ & Hlow & _).
  split.
  - apply Hhigh. discriminate.
  - rewrite Hlow by discriminate. reflexivity.
Defined.

Lemma contribution_field_in_use_witness :
  let s :=
    AccountPage.mkState (Some 1000) (Some 100) (Some 10%Z) (Some 5) Monthly
      General None None None None None None in
  AccountPage.results s
  = Page.results
      (Page.mkState (Some 1000) (Some 100) (Some 10%Z) (Some 5) Monthly
         General).
Proof.
  intros s.
  destruct (contribution_field_in_use s None) as (Hplain & _).
  apply Hplain. left. reflexivity.
Defined.

(** ** The three outputs together *)

(** X19.  The three outputs of a page stand or fall together, and agree:
    either the input is invalid and all three are [None], or all three are
    produced, the trajectory has floor(T) + 1 points, between 1 and 101,
    the first card is "Start Now" for the whole horizon, highlighted, with
    missedAmount 0 and the totalBalance of the result, no other card is
    highlighted, and there are at most two other cards.  When the horizon
    is a whole number of years the last trajectory point carries the
    totalBalance of the result as well. *)
Theorem outputs_agree
  (pw : Q -> Q -> Q) (P M T R : Q) (F : CompoundFrequency) :
  (Num.isValidInputs P M T R = false
   /\ Num.resultsOf pw P M T R F = None
   /\ Num.chartDataOf P M T R F = None
   /\ Num.comparisonScenariosOf pw P M T R F = None)
  \/ (exists res data now rest,
         Num.resultsOf pw P M T R F = Some res
         /\ Num.chartDataOf P M T R F = Some data
         /\ Num.comparisonScenariosOf pw P M T R F = Some (now :: rest)
         /\ List.length data = Z.to_nat (Qfloor T + 1)
         /\ (1 <= List.length data <= 101)%nat
         /\ Num.Scenario.label now = "Start Now"%string
         /\ Num.Scenario.years now = T
         /\ Num.Scenario.highlight now = true
         /\ Num.Scenario.missedAmount now = 0
         /\ Num.Scenario.totalBalance now = totalBalance res
         /\ (List.length rest <= 2)%nat
         /\ Forall (fun s => Num.Scenario.highlight s = false) rest
         /\ (forall k : Z,
                T == inject_Z k ->
                exists last,
                  nth_error data (Z.to_nat k) = Some last
                  /\ YearlyPoint.totalBalance last == totalBalance res)).
Proof.
  destruct (Num.isValidInputs P M T R) eqn:Hvalid.
  - right.
    pose proof (proj1 (num_isValidInputs_true_iff P M T R) Hvalid)
      as (_ & [HT0 HT100] & _).
    destruct (num_gate_open pw P M T R F Hvalid) as [Hres Hchart].
    assert (0 <= Qfloor T <= 100)%Z as Hfloor.
    { split.
      - change 0%Z with (Qfloor 0). apply Qfloor_resp_le. lra.
      - change 100%Z with (Qfloor 100). now apply Qfloor_resp_le. }
    assert (exists rest,
               Num.comparisonScenariosOf pw P M T R F
               = Some (Num.Scenario.mk "Start Now" T
                         (totalBalance
                            (Num.calculateCompoundInterest pw P M R T F))
                         true 0
                       :: rest)
               /\ (List.length rest <= 2)%nat
               /\ Forall (fun s => Num.Scenario.highlight s = false) rest)
      as (rest & Hscen & Hlen & Hrest).
    { unfold Num.comparisonScenariosOf. rewrite Hvalid. cbn [negb].
      destruct (Qgeb T 5); destruct (Qgeb T 10); eexists;
        (split; [reflexivity|]);
        (split; [simpl; lia | repeat constructor]). }
    exists (Num.calculateCompoundInterest pw P M R T F),
      (Num.calculateYearlyData P M R T F),
      (Num.Scenario.mk "Start Now" T
         (totalBalance (Num.calculateCompoundInterest pw P M R T F))
         true 0),
      rest.
    rewrite num_calculateYearlyData_length.
    repeat split; try assumption; try lia.
    intros k Hk.
    assert (Qfloor T = k) as Hfk.
    { rewrite (Qfloor_comp _ _ Hk). apply Qfloor_Z. }
    exists (Num.yearlyPoint P M R T F k). split.
    + apply num_calculateYearlyData_nth. lia.
    + destruct (num_projection_whole_years pw P M R T k F Hk) as (Hb & _).
      rewrite Hb. reflexivity.
  - left. split; [reflexivity|]. now apply num_gate_closed.
Qed.
